(** * torchsh/symbolic/codegen.py: generator of real spherical harmonics routines

    A shallow embedding of the code generator.  Python integers are [Z],
    Python strings are [string], Python lists are [list], raised exceptions
    are the left injection of a sum.  The symbolic engine (sympy) and the
    closed-form provider [Ylm] of [torchsh/symbolic/rsh.py] are parameters
    of the generator. *)

From Stdlib Require Import ZArith List String Ascii Bool Lia.
From Stdlib Require Import DecimalString DecimalZ.
From Stdlib Require Import QArith Qreals Reals.
Import ListNotations.

Local Open Scope list_scope.
Local Open Scope string_scope.
Local Open Scope Z_scope.

(** ** Python values and builtins used by the module *)

Module Py.

(** Exception classes that the module can meet. *)
Inductive exc_class : Type :=
| ImportError
| ModuleNotFoundError
| KeyError
| ValueError
| Exception
| OtherError (name : string).

Record exc : Type := Exc { exc_cls : exc_class; exc_msg : string }.


(** A computation that returns a value or raises. *)
Definition result (A : Type) : Type := (exc + A)%type.

Definition Ok {A : Type} (a : A) : result A := inr a.
Definition Raise {A : Type} (e : exc) : result A := inl e.

Definition bind {A B : Type} (c : result A) (k : A -> result B) : result B :=
  match c with
  | inl e => inl e
  | inr a => k a
  end.

(** The newline character and a text given line by line. *)
Definition nl : string := String (ascii_of_nat 10) "".

(** [sep.join(parts)] *)
Definition join (sep : string) (parts : list string) : string :=
  String.concat sep parts.

Definition lines (l : list string) : string := join nl l.

(** [str(i)] of an integer: its decimal numeral, with a minus sign for a
    negative one. *)
Definition str (i : Z) : string := NilEmpty.string_of_int (Z.to_int i).

(** [range(start, stop)] *)
Definition range (start stop : Z) : list Z :=
  map (fun i => start + Z.of_nat i) (seq 0 (Z.to_nat (stop - start))).

(** [l[:stop]]: a negative bound counts from the end, an out of range
    bound is clipped; a slice never raises. *)
Definition slice_to {A : Type} (l : list A) (stop : Z) : list A :=
  if stop <? 0
  then firstn (Z.to_nat (Z.of_nat (List.length l) + stop)) l
  else firstn (Z.to_nat stop) l.

(** [x in s] for strings. *)
Fixpoint contains (s sub : string) : bool :=
  if String.prefix sub s then true
  else match s with
       | EmptyString => false
       | String _ r => contains r sub
       end.

(** *** [str.format] with keyword arguments

    A template is literal text with replacement fields [{name}]; a doubled
    brace stands for one brace.  Only plain field names are modelled (no
    conversion, no format specification, no attribute or index), which is
    all that the templates of the module use. *)
Inductive piece : Type :=
| Lit (text : string)
| Field (name : string).

Definition cons_lit (c : ascii) (ps : list piece) : list piece :=
  match ps with
  | Lit s :: r => Lit (String c s) :: r
  | _ => Lit (String c "") :: ps
  end.

Definition malformed : exc := Exc ValueError "Single brace encountered in format string".

(** [scan s fld]: the pieces of [s]; [fld] is [Some name] while inside a
    replacement field whose name read so far is [name]. *)
Fixpoint scan (s : string) (fld : option string) : result (list piece) :=
  match s, fld with
  | EmptyString, None => Ok []
  | EmptyString, Some _ => Raise malformed
  | String c r, Some name =>
      if Ascii.eqb c "}"
      then bind (scan r None) (fun ps => Ok (Field name :: ps))
      else scan r (Some (name ++ String c ""))
  | String c r, None =>
      if Ascii.eqb c "{" then
        match r with
        | String "{" r' => bind (scan r' None) (fun ps => Ok (cons_lit "{" ps))
        | _ => scan r (Some "")
        end
      else if Ascii.eqb c "}" then
        match r with
        | String "}" r' => bind (scan r' None) (fun ps => Ok (cons_lit "}" ps))
        | _ => Raise malformed
        end
      else bind (scan r None) (fun ps => Ok (cons_lit c ps))
  end.

Fixpoint lookup (k : string) (kwargs : list (string * string)) : option string :=
  match kwargs with
  | [] => None
  | (k', v) :: r => if String.eqb k k' then Some v else lookup k r
  end.

Fixpoint render (ps : list piece) (kwargs : list (string * string)) : result string :=
  match ps with
  | [] => Ok ""
  | Lit s :: r => bind (render r kwargs) (fun t => Ok (s ++ t))
  | Field k :: r =>
      match lookup k kwargs with
      | None => Raise (Exc KeyError k)
      | Some v => bind (render r kwargs) (fun t => Ok (v ++ t))
      end
  end.

(** [tpl.format] applied to keyword arguments already converted to text. *)
Definition format (tpl : string) (kwargs : list (string * string)) : result string :=
  bind (scan tpl None) (fun ps => render ps kwargs).

End Py.

Notation "x <- c ;; k" := (Py.bind c (fun x => k))
  (at level 61, c at next level, right associativity).

(** ** Symbolic expressions of the external engine *)

(** The expressions that the generator builds and hands around: symbols
    (with the [real] assumption they were created with), numbers, sums,
    products and powers with a natural exponent. *)
Inductive Expr : Type :=
| Symbol (name : string) (real : bool)
| Integer (i : Z)
| Float (q : Q)
| Add (a b : Expr)
| Mul (a b : Expr)
| Pow (a : Expr) (n : nat).

(** The value of an expression at an assignment of its symbols. *)
Fixpoint eval (rho : string -> R) (e : Expr) : R :=
  match e with
  | Symbol name _ => rho name
  | Integer i => IZR i
  | Float q => Q2R q
  | Add a b => (eval rho a + eval rho b)%R
  | Mul a b => (eval rho a * eval rho b)%R
  | Pow a n => (eval rho a ^ n)%R
  end.

(** The names of the symbols of an expression. *)
Fixpoint free_symbols (e : Expr) : list string :=
  match e with
  | Symbol name _ => [name]
  | Integer _ | Float _ => []
  | Add a b | Mul a b => (free_symbols a ++ free_symbols b)%list
  | Pow a _ => free_symbols a
  end.

(** The operations of sympy that the module calls: [sym.N], [Expr.subs]
    with a dictionary, and [sym.pycode]. *)
Record SymPy : Type := {
  sym_N : Expr -> Expr;
  sym_subs : Expr -> list (Expr * Expr) -> Expr;
  sym_pycode : Expr -> string
}.

(** ** Module constants (lines 14-69) *)

(** [x, y, z = sym.symbols("x:z", real=True)] *)
Definition x : Expr := Symbol "x" true.
Definition y : Expr := Symbol "y" true.
Definition z : Expr := Symbol "z" true.

(** [sym.symbols(name)] *)
Definition symbols (name : string) : Expr := Symbol name false.

Definition _subs : list (Expr * Expr) :=
  [ (Pow x 2, symbols "x2");
    (Pow y 2, symbols "y2");
    (Pow z 2, symbols "z2");
    (Mul x y, symbols "xy");
    (Mul x z, symbols "xz");
    (Mul y z, symbols "yz") ].

Definition header_tpl : string :=
  Py.lines
    [ "";
      "'''Real spherical harmonics in Cartesian form for PyTorch.";
      "";
      "This is an autogenerated file. See";
      "https://github.com/cheind/torch-spherical-harmonics";
      "for more information.";
      "'''";
      "" ].

Definition import_tpl : string :=
  Py.lines [ ""; "import torch"; "" ].

Definition method_tpl : string :=
  Py.lines
    [ "";
      "def rsh_cart_{degree}(xyz:torch.Tensor):";
      "    '''Computes all real spherical harmonics up to {degree} degree.";
      "";
      "    This is an autogenerated method. See";
      "    https://github.com/cheind/torch-spherical-harmonics";
      "    for more information.";
      "";
      "    Params:";
      "        xyz: (N,...,3) tensor of points on the unit sphere";
      "    ";
      "    Returns:";
      "        rsh: (N,...,K) real spherical harmonics projections of input.";
      "    '''";
      "";
      "    x = xyz[...,0]";
      "    y = xyz[...,1]";
      "    z = xyz[...,2]";
      "";
      "    x2=x**2";
      "    y2=y**2";
      "    z2=z**2";
      "    xy=x*y";
      "    xz=x*z";
      "    yz=y*z";
      "";
      "    return torch.stack(";
      "        [{ynms}]";
      "        ,-1";
      "    )    ";
      "" ].

(** ** The generator (lines 72-109) *)

(** The type of [Ylm(n, m, x, y, z)], imported from [.rsh]. *)
Definition YlmT : Type := Z -> Z -> Expr -> Expr -> Expr -> Expr.

Section Generator.

(** [sym]: the imported engine; [Ylm]: the closed-form provider. *)
Variable sym : SymPy.
Variable Ylm : YlmT.

Definition _substitute (f : Expr) : Expr := sym_subs sym f _subs.

(** The serialized, substituted expression of the pair [(n, m)]: the value
    of [ylmstr] after line 86. *)
Definition ynm_code (n m : Z) : string :=
  sym_pycode sym (_substitute (sym_N sym (Ylm n m x y z))).

(** The body of the inner loop: the instruction text of the pair
    [(n, m)], after the test [if n == 0]. *)
Definition ynm_instruction (n m : Z) : string :=
  let ylm := Ylm n m x y z in
  let ylmstr := sym_pycode sym (_substitute (sym_N sym ylm)) in
  if n =? 0
  then "xyz.new_tensor(" ++ ylmstr ++ ").expand(xyz.shape[:-1])"
  else ylmstr.

(** The inner loop: [level] is extended by one instruction per order. *)
Definition ynm_level (n : Z) : list string :=
  fold_left (fun level m => (level ++ [ynm_instruction n m])%list)
            (Py.range (- n) (n + 1)) [].

Definition generate_ynm_instructions (max_degree start_degree : Z)
  : list (list string) :=
  fold_left (fun ynms n => (ynms ++ [ynm_level n])%list)
            (Py.range start_degree max_degree) [].

(** The flattening of the bands of degrees [0 .. d-1]. *)
Definition flat_levels (d : Z) : list string :=
  flat_map (fun sublist => sublist) (map ynm_level (Py.range 0 d)).

End Generator.

(** [[item for sublist in ynm_instr[:degree] for item in sublist]] *)
Definition flatten_bands (ynm_instr : list (list string)) (degree : Z) : list string :=
  flat_map (fun sublist => sublist) (Py.slice_to ynm_instr degree).

Definition generate_ynm_method (ynm_instr : list (list string)) (degree : Z)
  : Py.result string :=
  let ynms := flatten_bands ynm_instr degree in
  Py.format method_tpl [("degree", Py.str degree); ("ynms", Py.join "," ynms)].

Definition generate_ynm_file (ynm_instr : list (list string)) (degrees : list Z)
  : Py.result string :=
  content_parts <-
    fold_left (fun acc d =>
                 parts <- acc ;;
                 m <- generate_ynm_method ynm_instr d ;;
                 Py.Ok (parts ++ [m])%list)
              degrees (Py.Ok [header_tpl; import_tpl]) ;;
  Py.Ok (Py.join Py.nl content_parts).

(** ** Module initialisation (lines 1-117) *)


(** The names that the derivation functions read from the globals of the
    loaded module. *)
Record Module : Type := {
  mod_Ylm : YlmT;
  mod_sym : SymPy
}.



(** The derivation function as an attribute of a loaded module. *)
Definition module_generate_ynm_instructions (m : Module) (max_degree start_degree : Z)
  : list (list string) :=
  generate_ynm_instructions (mod_sym m) (mod_Ylm m) max_degree start_degree.

(** ** The command line entry point (lines 120-146) *)

(** The value that argparse stores for a flag declared without a type: the
    default object, or the text given on the command line. *)
Inductive flag_value : Type :=
| FlagDefault (i : Z)
| FlagGiven (s : string).

(** [args = parser.parse_args()] *)
Record Namespace : Type := {
  output : option string;
  degree : flag_value
}.

(** The default values declared for the two flags. *)
Definition default_args : Namespace :=
  {| output := None; degree := FlagDefault 4 |}.

(** What the entry point leaves in the world: a file written, a text
    printed. *)
Inductive Action : Type :=
| WriteFile (path content : string)
| PrintOut (content : string).

Section Main.

Variable sym : SymPy.
Variable Ylm : YlmT.

(** [parser.parse_args()] of the parser declared on lines 123-130, on the
    command line: the namespace, or the [SystemExit] that argparse raises. *)
Variable parse_args : list string -> Py.result Namespace.

(** [import black] and its [format_file_contents] with the mode and the
    [fast] flag fixed on lines 138-139. *)
Variable import_black : Py.result (string -> Py.result string).

(** The world outside the program and the two ways in which the entry
    point acts on it: [open(path, "w")] followed by [f.write(content)], and
    [print(content)]; each returns the new world or raises. *)
Variable World : Type.
Variable write_file : string -> string -> World -> Py.result World.
Variable print : string -> World -> Py.result World.

(** The calls into the engine and the provider that derive the table
    return or raise: [engine_error] is the exception that the first failing
    one of them raises, if any. *)
Variable engine_error : option Py.exc.

(** Lines 133-134: the document of the standalone generator. *)
Definition cli_document : Py.result string :=
  instr <- match engine_error with
           | Some e => Py.Raise e
           | None => Py.Ok (generate_ynm_instructions sym Ylm 8 0)
           end ;;
  generate_ynm_file instr [2; 4; 8].

(** [if args.output:] a missing or empty path is false. *)
Definition output_path (args : Namespace) : option string :=
  match output args with
  | Some path => if String.eqb path "" then None else Some path
  | None => None
  end.

Definition main (argv : list string) (w : World) : Py.result World :=
  args <- parse_args argv ;;
  file <- cli_document ;;
  format_file_contents <- import_black ;;
  fmt_file <- format_file_contents file ;;
  match output_path args with
  | Some path => write_file path fmt_file w
  | None => print fmt_file w
  end.

End Main.

(** ** The method template and its fields *)

(** The pieces of [method_tpl], obtained by running the scanner of
    [str.format] on it: four stretches of literal text around the fields
    [{degree}], [{degree}] and [{ynms}]. *)
Definition method_pieces : list Py.piece :=
  Eval vm_compute in
    match Py.scan method_tpl None with
    | inr ps => ps
    | inl _ => []
    end.

Definition literal_at (i : nat) : string :=
  match nth_error method_pieces i with
  | Some (Py.Lit s) => s
  | _ => ""
  end.

(** Text before the first [{degree}], between the two [{degree}], between
    the second [{degree}] and [{ynms}], and after [{ynms}]. *)
Definition method_head : string := Eval vm_compute in literal_at 0.
Definition method_doc : string := Eval vm_compute in literal_at 2.
Definition method_body : string := Eval vm_compute in literal_at 4.
Definition method_tail : string := Eval vm_compute in literal_at 6.

(** The text of a routine whose two fields are filled with [degree] and
    [ynms]. *)
Definition method_text (degree ynms : string) : string :=
  method_head ++ degree ++ method_doc ++ degree ++ method_body ++ ynms ++ method_tail.

(** The routine of degree [degree] over a table: the template filled with
    the degree and with the comma separated flattening of the leading
    bands. *)
Definition routine_text (ynm_instr : list (list string)) (degree : Z) : string :=
  method_text (Py.str degree) (Py.join "," (flatten_bands ynm_instr degree)).

(** The first line of a routine: its name carries the degree. *)
Definition def_line (degree : Z) : string :=
  "def rsh_cart_" ++ Py.str degree ++ "(xyz:torch.Tensor):".

(** The literal text after the signature, up to the second [{degree}]. *)
Definition method_doc_rest : string :=
  Eval vm_compute in String.substring 19 (String.length method_doc - 19) method_doc.

(** ** Evaluation points *)

Local Open Scope R_scope.

(** The assignment of a point [(px, py, pz)] to the symbols [x], [y], [z]. *)
Definition point_env (px py pz : R) (name : string) : R :=
  if String.eqb name "x" then px
  else if String.eqb name "y" then py
  else if String.eqb name "z" then pz
  else 0.

(** The assignment that the generated routine works with: the coordinates
    and the six products that the template computes on lines 58-63
    ([x2=x**2] is the square [x * x]). *)
Definition monomial_env (px py pz : R) (name : string) : R :=
  if String.eqb name "x" then px
  else if String.eqb name "y" then py
  else if String.eqb name "z" then pz
  else if String.eqb name "x2" then px * px
  else if String.eqb name "y2" then py * py
  else if String.eqb name "z2" then pz * pz
  else if String.eqb name "xy" then px * py
  else if String.eqb name "xz" then px * pz
  else if String.eqb name "yz" then py * pz
  else 0.

Local Close Scope R_scope.

(** An expression in the three coordinates only. *)
Definition in_xyz (f : Expr) : Prop :=
  forall name, In name (free_symbols f) -> In name ["x"; "y"; "z"].

(** The contract of [Expr.subs] that the generator relies on: replacing
    occurrences of the keys of a dictionary by their values gives an
    expression of the same value at every assignment at which each key has
    the value of its replacement. *)
Definition subs_replaces_equals (sym : SymPy) : Prop :=
  forall (tbl : list (Expr * Expr)) (rho : string -> R) (e : Expr),
    (forall k v, In (k, v) tbl -> eval rho k = eval rho v) ->
    eval rho (sym_subs sym e tbl) = eval rho e.

(** ** A small engine to run the generator on

    An instance of the engine and of the provider on which every function
    above computes: [subs] replaces, outermost first, each subexpression
    that is a key of the dictionary; [pycode] prints infix text; the
    provider has the closed forms of degrees 0 and 1 and a monomial for the
    higher ones. *)

Module Demo.

Fixpoint Expr_eqb (a b : Expr) : bool :=
  match a, b with
  | Symbol n r, Symbol n' r' => String.eqb n n' && Bool.eqb r r'
  | Integer i, Integer i' => Z.eqb i i'
  | Float q, Float q' => Z.eqb (Qnum q) (Qnum q') && Pos.eqb (Qden q) (Qden q')
  | Add a1 a2, Add b1 b2 => Expr_eqb a1 b1 && Expr_eqb a2 b2
  | Mul a1 a2, Mul b1 b2 => Expr_eqb a1 b1 && Expr_eqb a2 b2
  | Pow a1 n, Pow b1 n' => Expr_eqb a1 b1 && Nat.eqb n n'
  | _, _ => false
  end.

Fixpoint find (e : Expr) (tbl : list (Expr * Expr)) : option Expr :=
  match tbl with
  | [] => None
  | (k, v) :: r => if Expr_eqb e k then Some v else find e r
  end.

Fixpoint subs (e : Expr) (tbl : list (Expr * Expr)) : Expr :=
  match find e tbl with
  | Some v => v
  | None =>
      match e with
      | Add a b => Add (subs a tbl) (subs b tbl)
      | Mul a b => Mul (subs a tbl) (subs b tbl)
      | Pow a n => Pow (subs a tbl) n
      | _ => e
      end
  end.

Fixpoint pycode (e : Expr) : string :=
  match e with
  | Symbol n _ => n
  | Integer i => Py.str i
  | Float q => Py.str (Qnum q) ++ "/" ++ Py.str (Zpos (Qden q))
  | Add a b => pycode a ++ " + " ++ pycode b
  | Mul a b => pycode a ++ "*" ++ pycode b
  | Pow a n => pycode a ++ "**" ++ Py.str (Z.of_nat n)
  end.

Definition sympy : SymPy :=
  {| sym_N := fun e => e; sym_subs := subs; sym_pycode := pycode |}.

Definition Ylm : YlmT := fun n m x y z =>
  if n =? 0 then Float (28209479 # 100000000)
  else if n =? 1 then
    Mul (Float (48860251 # 100000000))
        (if m =? -1 then y else if m =? 0 then z else x)
  else Mul (Mul (Integer m) (Pow x 2)) (Pow z (Z.to_nat n)).


Definition black : Py.result (string -> Py.result string) :=
  Py.Ok (fun file => Py.Ok file).

End Demo.

(** ** The expression emitted for degree 0 (line 88) *)

(** The Python expressions that line 88 spells around the serialized
    constant: a name, serialized text taken as it is, attribute access, a
    call with one argument and a slice with an upper bound. *)
Inductive pyexpr : Type :=
| PName (id : string)
| PCode (text : string)
| PAttr (e : pyexpr) (attr : string)
| PCall (f : pyexpr) (arg : pyexpr)
| PSliceTo (e : pyexpr) (stop : Z).

(** The source text of an expression. *)
Fixpoint unparse (e : pyexpr) : string :=
  match e with
  | PName id => id
  | PCode text => text
  | PAttr e attr => unparse e ++ "." ++ attr
  | PCall f arg => unparse f ++ "(" ++ unparse arg ++ ")"
  | PSliceTo e stop => unparse e ++ "[:" ++ Py.str stop ++ "]"
  end.

(** The expression of the f-string of line 88 around [ylmstr]. *)
Definition broadcast_expr (ylmstr : string) : pyexpr :=
  PCall (PAttr (PCall (PAttr (PName "xyz") "new_tensor") (PCode ylmstr)) "expand")
        (PSliceTo (PAttr (PName "xyz") "shape") (-1)).

(** The tensor operations of torch that the expression calls:
    [t.shape], [t.new_tensor(value)] and [t.expand(size)]. *)
Record Torch : Type := {
  tensor : Type;
  scalar : Type;
  tensor_shape : tensor -> list nat;
  new_tensor : tensor -> scalar -> tensor;
  expand : tensor -> list nat -> Py.result tensor
}.

(** The values that the subexpressions of the emitted expression take. *)
Inductive pyvalue (T : Torch) : Type :=
| VTensor (t : tensor T)
| VSize (size : list nat)
| VScalar (v : scalar T)
| VMethod (self : tensor T) (name : string).

Arguments VTensor {T} t.
Arguments VSize {T} size.
Arguments VScalar {T} v.
Arguments VMethod {T} self name.

Section EvalExpr.

Variable T : Torch.

(** The number that a serialized constant denotes. *)
Variable scalar_value : string -> scalar T.

(** The argument of the generated routine. *)
Variable xyz : tensor T.

Definition attribute_error (attr : string) : Py.exc :=
  Py.Exc (Py.OtherError "AttributeError") attr.

Definition type_error : Py.exc := Py.Exc (Py.OtherError "TypeError") "".

(** Evaluation of an expression in the body of a routine, where [xyz] is
    the only name that the expression of line 88 reads. *)
Fixpoint eval_pyexpr (e : pyexpr) : Py.result (pyvalue T) :=
  match e with
  | PName id =>
      if String.eqb id "xyz" then Py.Ok (VTensor xyz)
      else Py.Raise (Py.Exc (Py.OtherError "NameError") id)
  | PCode text => Py.Ok (VScalar (scalar_value text))
  | PAttr e attr =>
      v <- eval_pyexpr e ;;
      match v with
      | VTensor t =>
          if String.eqb attr "shape" then Py.Ok (VSize (tensor_shape T t))
          else if String.eqb attr "new_tensor" || String.eqb attr "expand"
               then Py.Ok (VMethod t attr)
               else Py.Raise (attribute_error attr)
      | _ => Py.Raise (attribute_error attr)
      end
  | PCall f arg =>
      fv <- eval_pyexpr f ;;
      av <- eval_pyexpr arg ;;
      match fv, av with
      | VMethod t name, VScalar v =>
          if String.eqb name "new_tensor" then Py.Ok (VTensor (new_tensor T t v))
          else Py.Raise type_error
      | VMethod t name, VSize size =>
          if String.eqb name "expand"
          then t' <- expand T t size ;; Py.Ok (VTensor t')
          else Py.Raise type_error
      | _, _ => Py.Raise type_error
      end
  | PSliceTo e stop =>
      v <- eval_pyexpr e ;;
      match v with
      | VSize size => Py.Ok (VSize (Py.slice_to size stop))
      | _ => Py.Raise type_error
      end
  end.

End EvalExpr.

(** The contract of torch that the broadcast relies on: a tensor made from
    one number by [new_tensor] expands to every size, and the result has
    that size as its shape. *)
Definition torch_expands_scalars (T : Torch) : Prop :=
  forall (xyz : tensor T) (v : scalar T) (size : list nat),
  exists t, expand T (new_tensor T xyz v) size = Py.Ok t
            /\ tensor_shape T t = size.

(** A small tensor runtime, a command line parser and a world, to run the
    emitted expression and the entry point on. *)
Module DemoRun.

(** Tensors reduced to their shape; numbers reduced to their text. *)
Definition torch : Torch :=
  {| tensor := list nat;
     scalar := string;
     tensor_shape := fun t => t;
     new_tensor := fun _ _ => [];
     expand := fun t size =>
       match t with
       | [] => Py.Ok size
       | _ => Py.Raise (Py.Exc (Py.OtherError "RuntimeError") "expand")
       end |}.

Definition system_exit : Py.exc := Py.Exc (Py.OtherError "SystemExit") "2".

(** A parser for the command lines [-n value], [-o path] and the empty
    one; every other command line exits. *)
Definition parse_args (argv : list string) : Py.result Namespace :=
  match argv with
  | [] => Py.Ok default_args
  | [flag; value] =>
      if String.eqb flag "-n"
      then Py.Ok {| output := None; degree := FlagGiven value |}
      else if String.eqb flag "-o"
           then Py.Ok {| output := Some value; degree := FlagDefault 4 |}
           else Py.Raise system_exit
  | _ => Py.Raise system_exit
  end.

(** The world as the list of what was written and printed; a path under
    [/missing] cannot be opened. *)
Definition write_file (path content : string) (w : list Action)
  : Py.result (list Action) :=
  if String.prefix "/missing" path
  then Py.Raise (Py.Exc (Py.OtherError "FileNotFoundError") path)
  else Py.Ok (w ++ [WriteFile path content])%list.

Definition print (content : string) (w : list Action) : Py.result (list Action) :=
  Py.Ok (w ++ [PrintOut content])%list.

End DemoRun.

(** ** In-process compilation (lines 112-117) *)

(** [ctx[key]] on a dictionary with text keys. *)
Fixpoint dict_getitem {V : Type} (ctx : list (string * V)) (key : string)
  : Py.result V :=
  match ctx with
  | [] => Py.Raise (Py.Exc Py.KeyError key)
  | (k, v) :: r => if String.eqb key k then Py.Ok v else dict_getitem r key
  end.

(** The key of line 117, an f-string over the degree. *)
Definition compile_name (degree : Z) : string := "rsh_cart_" ++ Py.str degree.

Section Compile.

Variable sym : SymPy.
Variable Ylm : YlmT.

(** The callables of the interpreter, and [exec(source, ctx)] on an empty
    [ctx]: the names that executing the text binds, or the exception that
    it raises. *)
Variable callable : Type.
Variable exec : string -> Py.result (list (string * callable)).

Definition compile_file (degree : Z) : Py.result callable :=
  let instr := generate_ynm_instructions sym Ylm (degree + 1) 0 in
  source <- generate_ynm_file instr [degree] ;;
  ctx <- exec source ;;
  dict_getitem ctx (compile_name degree).

End Compile.

(** * Properties *)

(** ** The definitions on small inputs *)

Example range_orders : Py.range (-2) (2 + 1) = [-2; -1; 0; 1; 2].
Proof. reflexivity. Qed.

Example range_inverted : Py.range 3 1 = [].
Proof. reflexivity. Qed.

Example slice_examples :
  Py.slice_to [10; 20; 30] 2 = [10; 20]
  /\ Py.slice_to [10; 20; 30] 7 = [10; 20; 30]
  /\ Py.slice_to [10; 20; 30] (-1) = [10; 20]
  /\ Py.slice_to [10; 20; 30] (-5) = [].
Proof. repeat split. Qed.

Example str_examples : Py.str 0 = "0" /\ Py.str 8 = "8" /\ Py.str (-12) = "-12".
Proof. repeat split. Qed.

Example format_examples :
  Py.format "f_{a}({b})" [("a", "1"); ("b", "x")] = Py.Ok "f_1(x)"
  /\ Py.format "{{{a}}}" [("a", "1")] = Py.Ok "{1}"
  /\ Py.format "{a}" [("b", "x")] = Py.Raise (Py.Exc Py.KeyError "a")
  /\ Py.format "a}" [] = Py.Raise Py.malformed.
Proof. repeat split. Qed.

Example demo_table :
  generate_ynm_instructions Demo.sympy Demo.Ylm 2 0
  = [ ["xyz.new_tensor(28209479/100000000).expand(xyz.shape[:-1])"];
      ["48860251/100000000*y"; "48860251/100000000*z"; "48860251/100000000*x"] ].
Proof. reflexivity. Qed.

Example demo_stack :
  flatten_bands [["a"]; ["b"; "c"; "d"]; ["e"]] 2 = ["a"; "b"; "c"; "d"]
  /\ Py.join "," ["a"; "b"; "c"; "d"] = "a,b,c,d".
Proof. repeat split. Qed.

(** ** Facts about the builtins *)

Section Builtins.

Context {A B : Type}.

(** A loop that appends one element per iteration builds the image of
    the iterated list. *)
Lemma fold_left_snoc (f : A -> B) (l : list A) (init : list B) :
  fold_left (fun acc a => (acc ++ [f a])%list) l init = (init ++ map f l)%list.
Proof.
  revert init; induction l as [|a l IH]; intros init; simpl.
  - now rewrite app_nil_r.
  - rewrite IH, <- app_assoc. reflexivity.
Qed.

Lemma slice_to_all (l : list A) (stop : Z) :
  Z.of_nat (List.length l) <= stop -> Py.slice_to l stop = l.
Proof.
  intros H. unfold Py.slice_to.
  destruct (Z.ltb_spec stop 0) as [Hneg|Hpos]; [lia|].
  apply firstn_all2. lia.
Qed.

End Builtins.

Lemma range_length (a b : Z) : List.length (Py.range a b) = Z.to_nat (b - a).
Proof. unfold Py.range. now rewrite length_map, length_seq. Qed.

Lemma range_nth (a b : Z) (i : nat) :
  (i < Z.to_nat (b - a))%nat ->
  nth_error (Py.range a b) i = Some (a + Z.of_nat i).
Proof.
  intros H. unfold Py.range.
  rewrite nth_error_map, nth_error_seq.
  destruct (Nat.ltb_spec i (Z.to_nat (b - a))) as [_|Hge]; [reflexivity|lia].
Qed.

Lemma range_nth_inv (a b v : Z) (i : nat) :
  nth_error (Py.range a b) i = Some v ->
  v = a + Z.of_nat i /\ a <= v < b.
Proof.
  intros H.
  assert (Hi : (i < Z.to_nat (b - a))%nat).
  { rewrite <- range_length. apply nth_error_Some. congruence. }
  rewrite (range_nth _ _ _ Hi) in H. injection H as <-. lia.
Qed.

Lemma range_In (a b v : Z) : In v (Py.range a b) <-> a <= v < b.
Proof.
  unfold Py.range. rewrite in_map_iff. split.
  - intros [i [<- Hi]]. apply in_seq in Hi. lia.
  - intros H. exists (Z.to_nat (v - a)). split; [lia|].
    apply in_seq. lia.
Qed.

Lemma range_snoc (a b : Z) :
  a <= b -> Py.range a (b + 1) = (Py.range a b ++ [b])%list.
Proof.
  intros H. unfold Py.range.
  replace (Z.to_nat (b + 1 - a)) with (Z.to_nat (b - a) + 1)%nat by lia.
  rewrite seq_app, map_app. simpl. do 2 f_equal. lia.
Qed.

Lemma firstn_seq (n start len : nat) :
  firstn n (seq start len) = seq start (Nat.min n len).
Proof.
  revert start len; induction n as [|n IH]; intros start [|len]; simpl; try reflexivity.
  now rewrite IH.
Qed.

Lemma range_firstn (a b d : Z) :
  0 <= d <= b - a ->
  firstn (Z.to_nat d) (Py.range a b) = Py.range a (a + d).
Proof.
  intros H. unfold Py.range.
  rewrite firstn_map, firstn_seq.
  replace (Nat.min (Z.to_nat d) (Z.to_nat (b - a))) with (Z.to_nat (a + d - a)) by lia.
  reflexivity.
Qed.

Lemma range_empty (a b : Z) : b <= a -> Py.range a b = [].
Proof.
  intros H. unfold Py.range.
  replace (Z.to_nat (b - a)) with 0%nat by lia. reflexivity.
Qed.

Lemma method_tpl_scan :
  Py.scan method_tpl None =
  Py.Ok [ Py.Lit method_head; Py.Field "degree"; Py.Lit method_doc;
          Py.Field "degree"; Py.Lit method_body; Py.Field "ynms";
          Py.Lit method_tail ].
Proof. vm_compute. reflexivity. Qed.

Lemma method_tpl_fields :
  method_tpl =
  method_head ++ "{degree}" ++ method_doc ++ "{degree}" ++ method_body
              ++ "{ynms}" ++ method_tail.
Proof. vm_compute. reflexivity. Qed.

Lemma method_head_def_line : method_head = Py.nl ++ "def rsh_cart_".
Proof. vm_compute. reflexivity. Qed.

Lemma method_doc_signature :
  String.prefix "(xyz:torch.Tensor):" method_doc = true.
Proof. vm_compute. reflexivity. Qed.

Lemma method_body_stack :
  exists pre, method_body = pre ++ "return torch.stack(" ++ Py.nl ++ "        [".
Proof.
  exists (String.substring 0 (String.length method_body - 29) method_body).
  vm_compute. reflexivity.
Qed.

Lemma method_tail_axis :
  method_tail = Py.lines [ "]"; "        ,-1"; "    )    "; "" ].
Proof. vm_compute. reflexivity. Qed.

Lemma append_empty (s : string) : s ++ "" = s.
Proof. induction s as [|c s IH]; simpl; [reflexivity | now rewrite IH]. Qed.

Lemma render_seven (h d b t sd sy : string) :
  Py.render
    [ Py.Lit h; Py.Field "degree"; Py.Lit d; Py.Field "degree"; Py.Lit b;
      Py.Field "ynms"; Py.Lit t ]
    [ ("degree", sd); ("ynms", sy) ]
  = Py.Ok (h ++ sd ++ d ++ sd ++ b ++ sy ++ t).
Proof. cbn. now rewrite append_empty. Qed.

(** Formatting the method template never raises: both of its fields are
    supplied. *)
Lemma format_method_tpl (sd sy : string) :
  Py.format method_tpl [ ("degree", sd); ("ynms", sy) ] = Py.Ok (method_text sd sy).
Proof.
  unfold Py.format. rewrite method_tpl_scan.
  change (Py.bind (Py.Ok ?ps) ?k) with (k ps). cbv beta.
  apply render_seven.
Qed.

Lemma generate_ynm_method_text (ynm_instr : list (list string)) (degree : Z) :
  generate_ynm_method ynm_instr degree =
  Py.Ok (method_text (Py.str degree) (Py.join "," (flatten_bands ynm_instr degree))).
Proof. unfold generate_ynm_method. apply format_method_tpl. Qed.

(** ** The instruction table *)

Section Table.

Variable sym : SymPy.
Variable Ylm : YlmT.

Local Abbreviation instruction := (ynm_instruction sym Ylm).
Local Abbreviation level := (ynm_level sym Ylm).
Local Abbreviation table := (generate_ynm_instructions sym Ylm).
Local Abbreviation flat_levels := (flat_levels sym Ylm).

Lemma ynm_level_map (n : Z) :
  level n = map (instruction n) (Py.range (- n) (n + 1)).
Proof. unfold ynm_level. now rewrite fold_left_snoc. Qed.

Lemma generate_ynm_instructions_map (max_degree start_degree : Z) :
  table max_degree start_degree = map level (Py.range start_degree max_degree).
Proof. unfold generate_ynm_instructions. now rewrite fold_left_snoc. Qed.

Lemma ynm_level_length (n : Z) :
  0 <= n -> Z.of_nat (List.length (level n)) = 2 * n + 1.
Proof.
  intros Hn. rewrite ynm_level_map, length_map, range_length. lia.
Qed.

Lemma ynm_level_negative (n : Z) : n < 0 -> level n = [].
Proof.
  intros Hn. rewrite ynm_level_map, range_empty by lia. reflexivity.
Qed.

Lemma table_length (max_degree start_degree : Z) :
  List.length (table max_degree start_degree) = Z.to_nat (max_degree - start_degree).
Proof. now rewrite generate_ynm_instructions_map, length_map, range_length. Qed.

Lemma table_nth (max_degree start_degree : Z) (i : nat) (band : list string) :
  nth_error (table max_degree start_degree) i = Some band ->
  band = level (start_degree + Z.of_nat i) /\
  start_degree + Z.of_nat i < max_degree.
Proof.
  rewrite generate_ynm_instructions_map, nth_error_map.
  destruct (nth_error (Py.range start_degree max_degree) i) as [n|] eqn:E;
    simpl; [|discriminate].
  intros [= <-]. apply range_nth_inv in E as [-> ?]. split; [reflexivity|lia].
Qed.

Lemma level_nth (n : Z) (j : nat) (s : string) :
  nth_error (level n) j = Some s ->
  s = instruction n (- n + Z.of_nat j) /\ - n <= - n + Z.of_nat j <= n.
Proof.
  rewrite ynm_level_map, nth_error_map.
  destruct (nth_error (Py.range (- n) (n + 1)) j) as [m|] eqn:E;
    simpl; [|discriminate].
  intros [= <-]. apply range_nth_inv in E as [-> ?]. split; [reflexivity|lia].
Qed.

(** The leading [degree] bands of a table that starts at degree 0. *)
Lemma slice_table (max_degree degree : Z) :
  0 <= degree <= max_degree ->
  Py.slice_to (table max_degree 0) degree = map level (Py.range 0 degree).
Proof.
  intros H. unfold Py.slice_to.
  destruct (Z.ltb_spec degree 0) as [Hneg|_]; [lia|].
  rewrite generate_ynm_instructions_map, firstn_map, range_firstn by lia.
  reflexivity.
Qed.

Lemma flat_levels_succ (d : Z) :
  0 <= d -> flat_levels (d + 1) = (flat_levels d ++ level d)%list.
Proof.
  intros Hd. unfold flat_levels.
  rewrite range_snoc, map_app, flat_map_app by lia.
  simpl. now rewrite app_nil_r.
Qed.

Lemma flat_levels_length (d : Z) :
  0 <= d -> Z.of_nat (List.length (flat_levels d)) = d * d.
Proof.
  revert d. apply natlike_ind.
  - reflexivity.
  - intros d Hd IH. unfold Z.succ.
    rewrite flat_levels_succ, length_app, Nat2Z.inj_add, IH, ynm_level_length by lia.
    lia.
Qed.

(** Position [k] of the flattening holds the instruction of degree
    [sqrt k] and of order [k - n*n - n]. *)
Lemma flat_levels_nth (d : Z) :
  0 <= d ->
  forall k : nat,
    Z.of_nat k < d * d ->
    nth_error (flat_levels d) k =
    Some (instruction (Z.sqrt (Z.of_nat k))
            (Z.of_nat k - Z.sqrt (Z.of_nat k) * Z.sqrt (Z.of_nat k)
             - Z.sqrt (Z.of_nat k))).
Proof.
  revert d. apply (natlike_ind (fun d => forall k : nat, Z.of_nat k < d * d -> _)).
  - intros k Hk. lia.
  - intros d Hd IH k Hk. unfold Z.succ in *.
    rewrite flat_levels_succ by lia.
    pose proof (flat_levels_length d Hd) as Hlen.
    destruct (Z.lt_ge_cases (Z.of_nat k) (d * d)) as [Hlt|Hge].
    + rewrite nth_error_app1 by lia. now apply IH.
    + rewrite nth_error_app2 by lia.
      assert (Hs : Z.sqrt (Z.of_nat k) = d).
      { apply Z.sqrt_unique. unfold Z.succ. lia. }
      rewrite Hs.
      rewrite ynm_level_map, nth_error_map, range_nth by lia.
      simpl. do 2 f_equal. lia.
Qed.

Lemma flatten_bands_table (max_degree degree : Z) :
  0 <= degree <= max_degree ->
  flatten_bands (table max_degree 0) degree = flat_levels degree.
Proof.
  intros H. unfold flatten_bands, flat_levels. now rewrite slice_table.
Qed.

Lemma flatten_bands_beyond (ynm_instr : list (list string)) (degree : Z) :
  Z.of_nat (List.length ynm_instr) <= degree ->
  flatten_bands ynm_instr degree = List.concat ynm_instr.
Proof.
  intros H. unfold flatten_bands.
  rewrite slice_to_all by lia. now rewrite flat_map_concat_map, map_id.
Qed.

End Table.

(** ** Shape and order of the instruction table *)

Lemma sum_odd (d : Z) :
  0 <= d -> fold_right Z.add 0 (map (fun n => 2 * n + 1) (Py.range 0 d)) = d * d.
Proof.
  revert d. apply natlike_ind.
  - reflexivity.
  - intros d Hd IH. unfold Z.succ.
    assert (G : forall (l : list Z) (a : Z),
               fold_right Z.add a l = fold_right Z.add 0 l + a).
    { induction l as [|h l IHl]; intros a; cbn [fold_right]; [lia | rewrite IHl; lia]. }
    rewrite range_snoc, map_app, fold_right_app by lia.
    cbn [map fold_right]. rewrite G, IH. lia.
Qed.

(** C2: for [0 <= start_degree <= max_degree] the table has
    [max_degree - start_degree] bands and the band at index [i] has
    [2 * (start_degree + i) + 1] instructions. *)
Theorem generate_ynm_instructions_shape
  (sym : SymPy) (Ylm : YlmT) (max_degree start_degree : Z) :
  0 <= start_degree <= max_degree ->
  Z.of_nat (List.length (generate_ynm_instructions sym Ylm max_degree start_degree))
  = max_degree - start_degree
  /\ forall (i : nat) (band : list string),
       nth_error (generate_ynm_instructions sym Ylm max_degree start_degree) i = Some band ->
       Z.of_nat (List.length band) = 2 * (start_degree + Z.of_nat i) + 1.
Proof.
  intros H. split.
  - rewrite table_length. lia.
  - intros i band Hb. apply table_nth in Hb as [-> _].
    apply ynm_level_length. lia.
Qed.

Lemma generate_ynm_instructions_shape_witness :
  0 <= 1 <= 3
  /\ (Z.of_nat (List.length (generate_ynm_instructions Demo.sympy Demo.Ylm 3 1)) = 3 - 1
      /\ forall (i : nat) (band : list string),
           nth_error (generate_ynm_instructions Demo.sympy Demo.Ylm 3 1) i = Some band ->
           Z.of_nat (List.length band) = 2 * (1 + Z.of_nat i) + 1).
Proof.
  split; [lia|].
  apply (generate_ynm_instructions_shape Demo.sympy Demo.Ylm 3 1). lia.
Defined.

(** C1: for a table derived from degree 0 and [1 <= d <= len(table)], the
    routine of degree [d] is the template whose field [ynms], the list
    given to [torch.stack] with axis [-1], holds the flattening of the
    first [d] bands, which has [d * d] instructions, the sum of [2n + 1]
    for [n < d]. *)
Theorem generate_ynm_method_count
  (sym : SymPy) (Ylm : YlmT) (max_degree d : Z) :
  1 <= d <= Z.of_nat (List.length (generate_ynm_instructions sym Ylm max_degree 0)) ->
  let ynm_instr := generate_ynm_instructions sym Ylm max_degree 0 in
  generate_ynm_method ynm_instr d
  = Py.Ok (method_text (Py.str d) (Py.join "," (flatten_bands ynm_instr d)))
  /\ Z.of_nat (List.length (flatten_bands ynm_instr d)) = d * d
  /\ d * d = fold_right Z.add 0 (map (fun n => 2 * n + 1) (Py.range 0 d))
  /\ (exists pre, method_body = pre ++ "return torch.stack(" ++ Py.nl ++ "        [")
  /\ method_tail = Py.lines [ "]"; "        ,-1"; "    )    "; "" ].
Proof.
  intros H ynm_instr. rewrite table_length in H.
  split; [apply generate_ynm_method_text|].
  split; [|split; [|split]].
  - unfold ynm_instr. rewrite flatten_bands_table by lia.
    apply flat_levels_length. lia.
  - symmetry. apply sum_odd. lia.
  - exact method_body_stack.
  - exact method_tail_axis.
Qed.

Lemma generate_ynm_method_count_witness :
  1 <= 2 <= Z.of_nat (List.length (generate_ynm_instructions Demo.sympy Demo.Ylm 3 0))
  /\ Z.of_nat (List.length
                 (flatten_bands (generate_ynm_instructions Demo.sympy Demo.Ylm 3 0) 2))
     = 2 * 2.
Proof.
  assert (H : 1 <= 2 <= Z.of_nat (List.length
                (generate_ynm_instructions Demo.sympy Demo.Ylm 3 0))).
  { vm_compute. split; discriminate. }
  split; [exact H|].
  exact (proj1 (proj2 (generate_ynm_method_count Demo.sympy Demo.Ylm 3 2 H))).
Defined.

(** C3: the table is degree-major and order-minor.  The band at index [i]
    is the band of degree [start_degree + i]; its entry at index [j] is the
    instruction of order [-n + j], which runs from [-n] to [n]; and
    position [k] of a routine generated from a table that starts at degree
    0 holds the instruction of the pair [(n, m)] with [n = sqrt k] and
    [m = k - n*n - n]. *)
Theorem instruction_table_order
  (sym : SymPy) (Ylm : YlmT) (max_degree start_degree : Z) :
  (forall (i j : nat) (band : list string) (s : string),
      nth_error (generate_ynm_instructions sym Ylm max_degree start_degree) i = Some band ->
      nth_error band j = Some s ->
      let n := start_degree + Z.of_nat i in
      let m := - n + Z.of_nat j in
      band = ynm_level sym Ylm n /\ s = ynm_instruction sym Ylm n m
      /\ n < max_degree /\ - n <= m <= n)
  /\ (forall (d : Z) (k : nat),
        0 <= d <= max_degree ->
        Z.of_nat k < d * d ->
        let n := Z.sqrt (Z.of_nat k) in
        let m := Z.of_nat k - n * n - n in
        nth_error (flatten_bands (generate_ynm_instructions sym Ylm max_degree 0) d) k
        = Some (ynm_instruction sym Ylm n m)
        /\ 0 <= n < d /\ - n <= m <= n).
Proof.
  split.
  - intros i j band s Hb Hs n m.
    apply table_nth in Hb as [-> Hlt].
    apply level_nth in Hs as [-> Hm].
    repeat split; try reflexivity; subst n m; lia.
  - intros d k Hd Hk n m.
    rewrite flatten_bands_table by lia.
    split; [apply flat_levels_nth; lia|].
    pose proof (Z.sqrt_spec (Z.of_nat k) ltac:(lia)) as Hs.
    pose proof (Z.sqrt_nonneg (Z.of_nat k)) as Hn.
    fold n in Hs, Hn. unfold Z.succ in Hs. subst m. nia.
Qed.

Lemma instruction_table_order_witness :
  (nth_error (generate_ynm_instructions Demo.sympy Demo.Ylm 3 1) 1
   = Some (ynm_level Demo.sympy Demo.Ylm 2)
   /\ nth_error (ynm_level Demo.sympy Demo.Ylm 2) 3 = Some "1*x2*z2"
   /\ "1*x2*z2" = ynm_instruction Demo.sympy Demo.Ylm (1 + Z.of_nat 1)
                      (- (1 + Z.of_nat 1) + Z.of_nat 3))
  /\ (0 <= 2 <= 3 /\ Z.of_nat 2 < 2 * 2
      /\ nth_error (flatten_bands (generate_ynm_instructions Demo.sympy Demo.Ylm 3 0) 2) 2
         = Some (ynm_instruction Demo.sympy Demo.Ylm (Z.sqrt (Z.of_nat 2))
                   (Z.of_nat 2 - Z.sqrt (Z.of_nat 2) * Z.sqrt (Z.of_nat 2)
                    - Z.sqrt (Z.of_nat 2)))).
Proof.
  pose proof (instruction_table_order Demo.sympy Demo.Ylm 3 1) as [Htab _].
  pose proof (instruction_table_order Demo.sympy Demo.Ylm 3 0) as [_ Hflat].
  split.
  - assert (Hb : nth_error (generate_ynm_instructions Demo.sympy Demo.Ylm 3 1) 1
                 = Some (ynm_level Demo.sympy Demo.Ylm 2)) by reflexivity.
    assert (Hs : nth_error (ynm_level Demo.sympy Demo.Ylm 2) 3 = Some "1*x2*z2")
      by reflexivity.
    split; [exact Hb|]. split; [exact Hs|].
    exact (proj1 (proj2 (Htab 1%nat 3%nat _ _ Hb Hs))).
  - assert (H1 : 0 <= 2 <= 3) by lia.
    assert (H2 : Z.of_nat 2 < 2 * 2) by (vm_compute; reflexivity).
    split; [exact H1|]. split; [exact H2|].
    exact (proj1 (Hflat 2 2%nat H1 H2)).
Defined.

(** ** Slices of shapes *)

(** [shape[:-1]]: the shape without its trailing axis. *)
Lemma slice_to_minus_one {A : Type} (shape : list A) :
  Py.slice_to shape (-1) = removelast shape.
Proof.
  unfold Py.slice_to. change (-1 <? 0) with true. cbv iota.
  induction shape as [|a [|b r] IH]; try reflexivity.
  replace (Z.to_nat (Z.of_nat (List.length (a :: b :: r)) + -1))
    with (S (Z.to_nat (Z.of_nat (List.length (b :: r)) + -1)))
    by (cbn [List.length]; lia).
  cbn [firstn]. rewrite IH. reflexivity.
Qed.

(** ** Routines and documents *)

Lemma append_assoc (a b c : string) : (a ++ b) ++ c = a ++ b ++ c.
Proof. induction a as [|ch a IH]; simpl; [reflexivity | now rewrite IH]. Qed.

Lemma string_length_app (a b : string) :
  String.length (a ++ b) = (String.length a + String.length b)%nat.
Proof. induction a as [|ch a IH]; simpl; [reflexivity | now rewrite IH]. Qed.

Lemma method_doc_split : method_doc = "(xyz:torch.Tensor):" ++ method_doc_rest.
Proof. vm_compute. reflexivity. Qed.

Lemma generate_ynm_method_routine (ynm_instr : list (list string)) (d : Z) :
  generate_ynm_method ynm_instr d = Py.Ok (routine_text ynm_instr d).
Proof. apply generate_ynm_method_text. Qed.

(** A routine starts, after the newline that opens the template, with the
    definition line of its degree. *)
Lemma routine_text_def_line (ynm_instr : list (list string)) (d : Z) :
  exists rest, routine_text ynm_instr d = Py.nl ++ def_line d ++ rest.
Proof.
  exists (method_doc_rest ++ Py.str d ++ method_body
          ++ Py.join "," (flatten_bands ynm_instr d) ++ method_tail).
  unfold routine_text, method_text, def_line.
  rewrite method_head_def_line, method_doc_split.
  now rewrite !append_assoc.
Qed.

Lemma str_inj (d d' : Z) : Py.str d = Py.str d' -> d = d'.
Proof.
  unfold Py.str. intros H.
  assert (E : Some (Z.to_int d) = Some (Z.to_int d')).
  { rewrite <- !NilEmpty.isi. now rewrite H. }
  injection E as E.
  rewrite <- (DecimalZ.of_to d), <- (DecimalZ.of_to d'). now rewrite E.
Qed.

Lemma def_line_inj (d d' : Z) : def_line d = def_line d' -> d = d'.
Proof.
  unfold def_line. intros H. apply str_inj.
  assert (P : forall p a b, p ++ a = p ++ b -> a = b).
  { induction p as [|c p IH]; simpl; intros a b E; [exact E|].
    injection E as E. now apply IH. }
  apply P in H.
  assert (S : forall a b t, (a ++ t = b ++ t) -> a = b).
  { intros a b t E.
    assert (L : String.length a = String.length b).
    { apply (f_equal String.length) in E. rewrite !string_length_app in E. lia. }
    revert b E L. induction a as [|c a IH]; intros [|c' b] E L; simpl in *;
      try discriminate; [reflexivity|].
    injection L as L. injection E as -> E. f_equal. now apply IH. }
  now apply S in H.
Qed.

Lemma bind_Ok {A B : Type} (a : A) (k : A -> Py.result B) :
  Py.bind (Py.Ok a) k = k a.
Proof. reflexivity. Qed.

Lemma content_parts_loop (ynm_instr : list (list string)) (degrees : list Z)
      (init : list string) :
  fold_left (fun acc d =>
               parts <- acc ;;
               m <- generate_ynm_method ynm_instr d ;;
               Py.Ok (parts ++ [m])%list)
            degrees (Py.Ok init)
  = Py.Ok (init ++ map (routine_text ynm_instr) degrees)%list.
Proof.
  revert init. induction degrees as [|d ds IH]; intros init; cbn [fold_left map].
  - now rewrite app_nil_r.
  - rewrite bind_Ok, generate_ynm_method_routine, bind_Ok.
    rewrite IH, <- app_assoc. reflexivity.
Qed.

Lemma generate_ynm_file_parts (ynm_instr : list (list string)) (degrees : list Z) :
  generate_ynm_file ynm_instr degrees
  = Py.Ok (Py.join Py.nl
             (header_tpl :: import_tpl :: map (routine_text ynm_instr) degrees)).
Proof.
  unfold generate_ynm_file. rewrite content_parts_loop. reflexivity.
Qed.

(** C5: the document is the header, the import preamble and one routine
    per requested degree, in the order given, joined by newlines; each
    routine is the text that [generate_ynm_method] returns for that degree
    and opens with a definition line that carries the degree, different
    degrees giving different lines; the fixed text of a routine holds no
    copy of the header or of the preamble; a degree requested twice gives
    two routines. *)
Theorem generate_ynm_file_document
  (ynm_instr : list (list string)) (degrees : list Z) :
  generate_ynm_file ynm_instr degrees
  = Py.Ok (Py.join Py.nl
             (header_tpl :: import_tpl :: map (routine_text ynm_instr) degrees))
  /\ (forall d : Z,
        generate_ynm_method ynm_instr d = Py.Ok (routine_text ynm_instr d)
        /\ exists rest, routine_text ynm_instr d = Py.nl ++ def_line d ++ rest)
  /\ (forall d d' : Z, def_line d = def_line d' -> d = d')
  /\ (Py.contains method_tpl header_tpl = false
      /\ Py.contains method_tpl import_tpl = false)
  /\ (forall d : Z,
        generate_ynm_file ynm_instr [d; d]
        = Py.Ok (Py.join Py.nl
                   [ header_tpl; import_tpl;
                     routine_text ynm_instr d; routine_text ynm_instr d ])).
Proof.
  split; [apply generate_ynm_file_parts|].
  split.
  { intros d. split; [apply generate_ynm_method_routine | apply routine_text_def_line]. }
  split; [exact def_line_inj|].
  split; [split; vm_compute; reflexivity|].
  intros d. apply generate_ynm_file_parts.
Qed.

Lemma generate_ynm_file_document_witness :
  generate_ynm_file (generate_ynm_instructions Demo.sympy Demo.Ylm 4 0) [2; 4]
  = Py.Ok (Py.join Py.nl
             [ header_tpl; import_tpl;
               routine_text (generate_ynm_instructions Demo.sympy Demo.Ylm 4 0) 2;
               routine_text (generate_ynm_instructions Demo.sympy Demo.Ylm 4 0) 4 ])
  /\ (def_line 2 = "def rsh_cart_2(xyz:torch.Tensor):"
      /\ def_line 4 = "def rsh_cart_4(xyz:torch.Tensor):"
      /\ ~ def_line 2 = def_line 4).
Proof.
  pose proof (generate_ynm_file_document
                (generate_ynm_instructions Demo.sympy Demo.Ylm 4 0) [2; 4])
    as [Hdoc [_ [Hinj _]]].
  split; [exact Hdoc|].
  split; [reflexivity|]. split; [reflexivity|].
  intros E. apply Hinj in E. discriminate E.
Defined.

(** ** A degree beyond the table *)

Lemma generate_ynm_method_all_bands (ynm_instr : list (list string)) (d : Z) :
  Z.of_nat (List.length ynm_instr) <= d ->
  generate_ynm_method ynm_instr d
  = Py.Ok (method_text (Py.str d) (Py.join "," (List.concat ynm_instr))).
Proof.
  intros H. rewrite generate_ynm_method_text, flatten_bands_beyond by exact H.
  reflexivity.
Qed.

Lemma table_concat_length (sym : SymPy) (Ylm : YlmT) (max_degree : Z) :
  let ynm_instr := generate_ynm_instructions sym Ylm max_degree 0 in
  Z.of_nat (List.length (List.concat ynm_instr))
  = Z.of_nat (List.length ynm_instr) * Z.of_nat (List.length ynm_instr).
Proof.
  intros ynm_instr.
  rewrite <- (flatten_bands_beyond ynm_instr (Z.of_nat (List.length ynm_instr)))
    by lia.
  unfold ynm_instr. rewrite table_length.
  destruct (Z.le_gt_cases 0 max_degree) as [Hpos|Hneg].
  - rewrite flatten_bands_table by lia.
    rewrite flat_levels_length by lia. reflexivity.
  - rewrite generate_ynm_instructions_map, range_empty by lia.
    replace (Z.to_nat (max_degree - 0)) with 0%nat by lia. reflexivity.
Qed.

(** C10, as the code has it: for every table and every degree beyond its
    length the routine is returned, no exception is raised, and it stacks
    the instructions of all the bands of the table; for a table derived
    from degree 0 these are [len * len] instructions, fewer than
    [d * d]. *)
Theorem generate_ynm_method_beyond_table :
  (forall (ynm_instr : list (list string)) (d : Z),
      Z.of_nat (List.length ynm_instr) < d ->
      generate_ynm_method ynm_instr d
      = Py.Ok (method_text (Py.str d) (Py.join "," (List.concat ynm_instr)))
      /\ flatten_bands ynm_instr d = List.concat ynm_instr)
  /\ (forall (sym : SymPy) (Ylm : YlmT) (max_degree d : Z),
        let ynm_instr := generate_ynm_instructions sym Ylm max_degree 0 in
        let len := Z.of_nat (List.length ynm_instr) in
        len < d ->
        Z.of_nat (List.length (flatten_bands ynm_instr d)) = len * len
        /\ len * len < d * d).
Proof.
  split.
  - intros ynm_instr d H. split.
    + apply generate_ynm_method_all_bands. lia.
    + apply flatten_bands_beyond. lia.
  - intros sym Ylm max_degree d ynm_instr len H.
    rewrite flatten_bands_beyond by (fold len; lia).
    split; [apply table_concat_length|]. nia.
Qed.

Lemma generate_ynm_method_beyond_table_witness :
  (Z.of_nat (List.length (generate_ynm_instructions Demo.sympy Demo.Ylm 2 0)) < 3
   /\ Z.of_nat (List.length
                  (flatten_bands (generate_ynm_instructions Demo.sympy Demo.Ylm 2 0) 3))
      = 2 * 2
   /\ 2 * 2 < 3 * 3)
  /\ generate_ynm_method [["a"]; ["b"; "c"; "d"]] 3
     = Py.Ok (method_text "3" "a,b,c,d").
Proof.
  pose proof generate_ynm_method_beyond_table as [Hany Htab].
  assert (H : Z.of_nat (List.length
                (generate_ynm_instructions Demo.sympy Demo.Ylm 2 0)) < 3)
    by (vm_compute; reflexivity).
  assert (H' : Z.of_nat (List.length [["a"]; ["b"; "c"; "d"]]) < 3)
    by (vm_compute; reflexivity).
  split.
  - split; [exact H|]. exact (Htab Demo.sympy Demo.Ylm 2 3 H).
  - exact (proj1 (Hany [["a"]; ["b"; "c"; "d"]] 3 H')).
Defined.

(** C10, as stated, fails on a table that does not start at degree 0: the
    table of the single degree 2 has one band of five instructions; the
    routine of degree 2 is returned and stacks five instructions, not fewer
    than [2 * 2]. *)
Lemma generate_ynm_method_beyond_table_counterexample :
  let ynm_instr := generate_ynm_instructions Demo.sympy Demo.Ylm 3 2 in
  Z.of_nat (List.length ynm_instr) < 2
  /\ generate_ynm_method ynm_instr 2
     = Py.Ok (method_text "2" "-2*x2*z2,-1*x2*z2,0*x2*z2,1*x2*z2,2*x2*z2")
  /\ Z.of_nat (List.length (flatten_bands ynm_instr 2)) = 5
  /\ ~ Z.of_nat (List.length (flatten_bands ynm_instr 2)) < 2 * 2.
Proof.
  cbv zeta. split; [vm_compute; reflexivity|].
  split; [rewrite generate_ynm_method_text; reflexivity|].
  split; [reflexivity|].
  vm_compute. discriminate.
Qed.

(** ** The command line entry point *)

Lemma table_routine_count (sym : SymPy) (Ylm : YlmT) (max_degree d : Z) :
  0 <= d <= max_degree ->
  Z.of_nat (List.length
              (flatten_bands (generate_ynm_instructions sym Ylm max_degree 0) d))
  = d * d.
Proof.
  intros H. rewrite flatten_bands_table by lia. apply flat_levels_length. lia.
Qed.

(** C7: whatever the command line is, the document that the entry point
    hands to the formatter is the header, the preamble and the routines of
    degrees 2, 4 and 8 (of 4, 16 and 64 instructions) over the table of
    degrees 0 to 7; when the command line parses, the engine raises
    nothing and the formatter returns, what the entry point writes or
    prints is the formatter's result on that document, and whatever it
    emitted came about in this way; two command lines whose namespaces
    differ only in the degree flag give the same result. *)
Theorem main_emits_fixed_degrees
  (sym : SymPy) (Ylm : YlmT)
  (parse_args : list string -> Py.result Namespace)
  (import_black : Py.result (string -> Py.result string))
  (World : Type)
  (write_file : string -> string -> World -> Py.result World)
  (print : string -> World -> Py.result World)
  (engine_error : option Py.exc) :
  let instr := generate_ynm_instructions sym Ylm 8 0 in
  let doc := Py.join Py.nl
               [ header_tpl; import_tpl;
                 routine_text instr 2; routine_text instr 4; routine_text instr 8 ] in
  let emit := fun (args : Namespace) (fmt_file : string) (w : World) =>
                match output_path args with
                | Some path => write_file path fmt_file w
                | None => print fmt_file w
                end in
  let run := main sym Ylm parse_args import_black World write_file print
                  engine_error in
  (Z.of_nat (List.length (flatten_bands instr 2)) = 4
   /\ Z.of_nat (List.length (flatten_bands instr 4)) = 16
   /\ Z.of_nat (List.length (flatten_bands instr 8)) = 64)
  /\ (forall argv args format_file_contents fmt_file w,
        parse_args argv = Py.Ok args ->
        engine_error = None ->
        import_black = Py.Ok format_file_contents ->
        format_file_contents doc = Py.Ok fmt_file ->
        run argv w = emit args fmt_file w)
  /\ (forall argv w w',
        run argv w = Py.Ok w' ->
        exists args format_file_contents fmt_file,
          parse_args argv = Py.Ok args
          /\ engine_error = None
          /\ import_black = Py.Ok format_file_contents
          /\ format_file_contents doc = Py.Ok fmt_file
          /\ emit args fmt_file w = Py.Ok w')
  /\ (forall argv1 argv2 args1 args2 w,
        parse_args argv1 = Py.Ok args1 ->
        parse_args argv2 = Py.Ok args2 ->
        output args1 = output args2 ->
        run argv1 w = run argv2 w).
Proof.
  intros instr doc emit run.
  assert (Hdoc : cli_document sym Ylm None = Py.Ok doc).
  { unfold cli_document. rewrite bind_Ok. apply generate_ynm_file_parts. }
  split.
  { unfold instr. rewrite !table_routine_count by lia. repeat split. }
  split; [|split].
  - intros argv args f fmt w Hp He Hb Hf. unfold run, main.
    rewrite Hp, bind_Ok, He, Hdoc, bind_Ok, Hb, bind_Ok, Hf, bind_Ok. reflexivity.
  - intros argv w w' H. unfold run, main in H.
    destruct (parse_args argv) as [e|args]; [discriminate H|].
    rewrite bind_Ok in H.
    destruct engine_error as [e|]; [discriminate H|].
    rewrite Hdoc, bind_Ok in H.
    destruct import_black as [e|f]; [discriminate H|].
    rewrite bind_Ok in H.
    destruct (f doc) as [e|fmt] eqn:Hf; [discriminate H|].
    rewrite bind_Ok in H.
    exists args, f, fmt. repeat split; [exact Hf | exact H].
  - intros argv1 argv2 args1 args2 w H1 H2 Ho. unfold run, main.
    rewrite H1, H2, !bind_Ok. unfold output_path. rewrite Ho. reflexivity.
Qed.

Lemma main_emits_fixed_degrees_witness :
  let instr := generate_ynm_instructions Demo.sympy Demo.Ylm 8 0 in
  let doc := Py.join Py.nl
               [ header_tpl; import_tpl;
                 routine_text instr 2; routine_text instr 4; routine_text instr 8 ] in
  let black : Py.result (string -> Py.result string) :=
    Py.Ok (fun file => Py.Ok ("# formatted" ++ file)) in
  let run := main Demo.sympy Demo.Ylm DemoRun.parse_args black
                  (list Action) DemoRun.write_file DemoRun.print None in
  (DemoRun.parse_args ["-n"; "3"]
   = Py.Ok {| output := None; degree := FlagGiven "3" |}
   /\ run ["-n"; "3"] [] = Py.Ok [PrintOut ("# formatted" ++ doc)])
  /\ (DemoRun.parse_args ["-o"; "rsh.py"]
      = Py.Ok {| output := Some "rsh.py"; degree := FlagDefault 4 |}
      /\ run ["-o"; "rsh.py"] [] = Py.Ok [WriteFile "rsh.py" ("# formatted" ++ doc)])
  /\ (DemoRun.parse_args [] = Py.Ok default_args
      /\ output {| output := None; degree := FlagGiven "3" |} = output default_args
      /\ run ["-n"; "3"] [] = run [] []).
Proof.
  intros instr doc black run.
  pose proof (main_emits_fixed_degrees Demo.sympy Demo.Ylm DemoRun.parse_args black
                (list Action) DemoRun.write_file DemoRun.print None)
    as [_ [Hemit [_ Hflag]]].
  assert (Hn : DemoRun.parse_args ["-n"; "3"]
               = Py.Ok {| output := None; degree := FlagGiven "3" |}) by reflexivity.
  assert (Ho : DemoRun.parse_args ["-o"; "rsh.py"]
               = Py.Ok {| output := Some "rsh.py"; degree := FlagDefault 4 |})
    by reflexivity.
  assert (Hd : DemoRun.parse_args [] = Py.Ok default_args) by reflexivity.
  split; [|split].
  - split; [exact Hn|].
    exact (Hemit ["-n"; "3"] _ _ _ [] Hn eq_refl eq_refl eq_refl).
  - split; [exact Ho|].
    exact (Hemit ["-o"; "rsh.py"] _ _ _ [] Ho eq_refl eq_refl eq_refl).
  - split; [exact Hd|]. split; [reflexivity|].
    exact (Hflag ["-n"; "3"] [] _ _ [] Hn Hd eq_refl).
Defined.

(** ** The import guard *)




(** ** Soundness of the substitution *)

Lemma eval_ext (rho1 rho2 : string -> R) (e : Expr) :
  (forall name, In name (free_symbols e) -> rho1 name = rho2 name) ->
  eval rho1 e = eval rho2 e.
Proof.
  induction e as [name r|i|q|a IHa b IHb|a IHa b IHb|a IHa n]; intros H; simpl.
  - apply H. now left.
  - reflexivity.
  - reflexivity.
  - rewrite IHa, IHb; [reflexivity| |]; intros s Hs; apply H; simpl;
      apply in_or_app; auto.
  - rewrite IHa, IHb; [reflexivity| |]; intros s Hs; apply H; simpl;
      apply in_or_app; auto.
  - rewrite IHa; [reflexivity|]. exact H.
Qed.

Lemma monomial_env_xyz (px py pz : R) (f : Expr) :
  in_xyz f -> eval (monomial_env px py pz) f = eval (point_env px py pz) f.
Proof.
  intros H. apply eval_ext. intros name Hn. apply H in Hn.
  simpl in Hn. destruct Hn as [<-|[<-|[<-|[]]]]; reflexivity.
Qed.

(** Every key of [_subs] has, at the assignment of the routine, the value
    of the symbol that replaces it. *)
Lemma _subs_entries (px py pz : R) (k v : Expr) :
  In (k, v) _subs ->
  eval (monomial_env px py pz) k = eval (monomial_env px py pz) v.
Proof.
  unfold _subs. simpl.
  intros [E|[E|[E|[E|[E|[E|[]]]]]]]; injection E as <- <-;
    cbn [eval x y z symbols]; unfold monomial_env; simpl; ring.
Qed.

(** C6: for an engine whose [subs] replaces equals by equals, the
    substituted expression has, at the assignment [x2 = x*x], [y2 = y*y],
    [z2 = z*z], [xy = x*y], [xz = x*z], [yz = y*z], the value of the
    expression before the substitution; for an expression in [x], [y], [z]
    this is its value at the point. *)
Theorem substitute_preserves_value (sym : SymPy) :
  subs_replaces_equals sym ->
  forall (f : Expr) (px py pz : R),
    eval (monomial_env px py pz) (_substitute sym f)
    = eval (monomial_env px py pz) f
    /\ (in_xyz f ->
        eval (monomial_env px py pz) (_substitute sym f)
        = eval (point_env px py pz) f).
Proof.
  intros Hsubs f px py pz.
  assert (E : eval (monomial_env px py pz) (_substitute sym f)
              = eval (monomial_env px py pz) f).
  { unfold _substitute. apply Hsubs. apply _subs_entries. }
  split; [exact E|].
  intros Hf. rewrite E. now apply monomial_env_xyz.
Qed.

Module DemoFacts.

Lemma Expr_eqb_eq (a b : Expr) : Demo.Expr_eqb a b = true -> a = b.
Proof.
  revert b.
  induction a as [name r|i|q|a1 IH1 a2 IH2|a1 IH1 a2 IH2|a1 IH1 n];
    intros [name' r'|i'|q'|b1 b2|b1 b2|b1 n']; simpl; try discriminate; intros H.
  - apply andb_prop in H as [Hn Hr].
    apply String.eqb_eq in Hn. apply Bool.eqb_prop in Hr. now subst.
  - apply Z.eqb_eq in H. now subst.
  - apply andb_prop in H as [Hn Hd].
    apply Z.eqb_eq in Hn. apply Pos.eqb_eq in Hd.
    destruct q, q'; simpl in *. now subst.
  - apply andb_prop in H as [H1 H2]. now rewrite (IH1 _ H1), (IH2 _ H2).
  - apply andb_prop in H as [H1 H2]. now rewrite (IH1 _ H1), (IH2 _ H2).
  - apply andb_prop in H as [H1 H2]. apply Nat.eqb_eq in H2.
    now rewrite (IH1 _ H1), H2.
Qed.

Lemma find_In (e v : Expr) (tbl : list (Expr * Expr)) :
  Demo.find e tbl = Some v -> exists k, In (k, v) tbl /\ e = k.
Proof.
  induction tbl as [|[k' v'] tbl IH]; simpl; [discriminate|].
  destruct (Demo.Expr_eqb e k') eqn:E.
  - intros [= <-]. exists k'. split; [now left | now apply Expr_eqb_eq].
  - intros H. destruct (IH H) as [k [Hin Hk]]. exists k. split; [now right | exact Hk].
Qed.

Lemma subs_unfold (e : Expr) (tbl : list (Expr * Expr)) :
  Demo.subs e tbl
  = match Demo.find e tbl with
    | Some v => v
    | None =>
        match e with
        | Add a b => Add (Demo.subs a tbl) (Demo.subs b tbl)
        | Mul a b => Mul (Demo.subs a tbl) (Demo.subs b tbl)
        | Pow a n => Pow (Demo.subs a tbl) n
        | _ => e
        end
    end.
Proof. destruct e; reflexivity. Qed.

(** The replacement of the small engine meets the contract. *)
Lemma subs_sound : subs_replaces_equals Demo.sympy.
Proof.
  intros tbl rho e H. cbn [sym_subs Demo.sympy].
  induction e as [name r|i|q|a IHa b IHb|a IHa b IHb|a IHa n];
    rewrite subs_unfold;
    match goal with
    | |- context [Demo.find ?t tbl] =>
        destruct (Demo.find t tbl) as [v|] eqn:F;
        [ apply find_In in F as [k [Hin Hk]]; rewrite Hk; symmetry; now apply H | ]
    end; cbn [eval]; try reflexivity.
  - now rewrite IHa, IHb.
  - now rewrite IHa, IHb.
  - now rewrite IHa.
Qed.

End DemoFacts.

Lemma substitute_preserves_value_witness :
  let f := Add (Mul (Pow x 2) y) (Mul (Float (1 # 2)) (Mul y z)) in
  subs_replaces_equals Demo.sympy
  /\ in_xyz f
  /\ _substitute Demo.sympy f
     = Add (Mul (symbols "x2") y) (Mul (Float (1 # 2)) (symbols "yz"))
  /\ eval (monomial_env 1 2 3) (_substitute Demo.sympy f) = eval (point_env 1 2 3) f.
Proof.
  intros f.
  assert (Hf : in_xyz f).
  { intros name H. simpl in H.
    destruct H as [<-|[<-|[<-|[<-|[]]]]]; simpl; auto. }
  split; [exact DemoFacts.subs_sound|]. split; [exact Hf|]. split; [reflexivity|].
  exact (proj2 (substitute_preserves_value Demo.sympy DemoFacts.subs_sound f 1 2 3) Hf).
Defined.

(** ** The broadcast of the degree 0 instruction *)

Lemma unparse_broadcast (ylmstr : string) :
  unparse (broadcast_expr ylmstr)
  = "xyz.new_tensor(" ++ ylmstr ++ ").expand(xyz.shape[:-1])".
Proof.
  unfold broadcast_expr. cbn [unparse].
  change (Py.str (-1)) with "-1".
  rewrite !append_assoc. reflexivity.
Qed.

Lemma table_band (sym : SymPy) (Ylm : YlmT) (max_degree start_degree n : Z) :
  start_degree <= n < max_degree ->
  nth_error (generate_ynm_instructions sym Ylm max_degree start_degree)
            (Z.to_nat (n - start_degree))
  = Some (ynm_level sym Ylm n).
Proof.
  intros H. rewrite generate_ynm_instructions_map, nth_error_map, range_nth by lia.
  cbn [option_map]. do 2 f_equal. lia.
Qed.

(** What the expression of line 88 evaluates to in a routine. *)
Lemma eval_broadcast (T : Torch) (scalar_value : string -> scalar T)
      (xyz : tensor T) (ylmstr : string) :
  eval_pyexpr T scalar_value xyz (broadcast_expr ylmstr)
  = (t <- expand T (new_tensor T xyz (scalar_value ylmstr))
                 (Py.slice_to (tensor_shape T xyz) (-1)) ;;
     Py.Ok (VTensor t)).
Proof. reflexivity. Qed.

(** C4: in a table whose range holds degree 0, the band of degree 0 is the
    single instruction that spells [xyz.new_tensor(c).expand(xyz.shape[:-1])]
    around the serialized constant [c]; evaluated in a routine, on a torch
    in which a tensor made from one number expands to every size, this
    expression is a tensor whose shape is the shape of the input [xyz]
    without its trailing axis; and the band of every degree [n >= 1] of
    the table holds the [2n + 1] serialized expressions as they are. *)
Theorem degree_zero_broadcast
  (sym : SymPy) (Ylm : YlmT) (T : Torch) (scalar_value : string -> scalar T)
  (max_degree start_degree : Z) :
  (start_degree <= 0 < max_degree ->
   nth_error (generate_ynm_instructions sym Ylm max_degree start_degree)
             (Z.to_nat (0 - start_degree))
   = Some [unparse (broadcast_expr (ynm_code sym Ylm 0 0))]
   /\ unparse (broadcast_expr (ynm_code sym Ylm 0 0))
      = "xyz.new_tensor(" ++ ynm_code sym Ylm 0 0 ++ ").expand(xyz.shape[:-1])")
  /\ (torch_expands_scalars T ->
      forall (xyz : tensor T) (ylmstr : string),
      exists t,
        eval_pyexpr T scalar_value xyz (broadcast_expr ylmstr) = Py.Ok (VTensor t)
        /\ tensor_shape T t = removelast (tensor_shape T xyz))
  /\ (forall n : Z,
        start_degree <= n < max_degree -> 1 <= n ->
        nth_error (generate_ynm_instructions sym Ylm max_degree start_degree)
                  (Z.to_nat (n - start_degree))
        = Some (map (ynm_code sym Ylm n) (Py.range (- n) (n + 1)))
        /\ Z.of_nat (List.length (map (ynm_code sym Ylm n) (Py.range (- n) (n + 1))))
           = 2 * n + 1).
Proof.
  split; [|split].
  - intros H. split; [|apply unparse_broadcast].
    rewrite table_band by lia. rewrite unparse_broadcast. reflexivity.
  - intros Htorch xyz ylmstr. rewrite eval_broadcast.
    destruct (Htorch xyz (scalar_value ylmstr)
                (Py.slice_to (tensor_shape T xyz) (-1))) as [t [E S]].
    exists t. rewrite E, bind_Ok. split; [reflexivity|].
    rewrite S. apply slice_to_minus_one.
  - intros n Hn H1. rewrite table_band by lia. split.
    + f_equal. rewrite ynm_level_map. apply map_ext. intros m.
      unfold ynm_instruction, ynm_code.
      destruct (Z.eqb_spec n 0) as [E|_]; [lia|reflexivity].
    + rewrite length_map, range_length. lia.
Qed.

Lemma degree_zero_broadcast_witness :
  (0 <= 0 < 2
   /\ nth_error (generate_ynm_instructions Demo.sympy Demo.Ylm 2 0) (Z.to_nat (0 - 0))
      = Some ["xyz.new_tensor(28209479/100000000).expand(xyz.shape[:-1])"])
  /\ (torch_expands_scalars DemoRun.torch
      /\ exists t,
           eval_pyexpr DemoRun.torch (fun text => text) [5; 7; 3]%nat
                       (broadcast_expr "28209479/100000000")
           = Py.Ok (VTensor t)
           /\ tensor_shape DemoRun.torch t = [5; 7]%nat)
  /\ (0 <= 1 < 2 /\ 1 <= 1
      /\ nth_error (generate_ynm_instructions Demo.sympy Demo.Ylm 2 0) (Z.to_nat (1 - 0))
         = Some ["48860251/100000000*y"; "48860251/100000000*z";
                 "48860251/100000000*x"]).
Proof.
  pose proof (degree_zero_broadcast Demo.sympy Demo.Ylm DemoRun.torch
                (fun text => text) 2 0) as [H0 [Heval Hn]].
  assert (Htorch : torch_expands_scalars DemoRun.torch).
  { intros xyz v size. exists size. split; reflexivity. }
  assert (R0 : 0 <= 0 < 2) by lia.
  assert (R1 : 0 <= 1 < 2) by lia.
  assert (R2 : 1 <= 1) by lia.
  split; [|split].
  - split; [exact R0|]. exact (proj1 (H0 R0)).
  - split; [exact Htorch|].
    exact (Heval Htorch [5; 7; 3]%nat "28209479/100000000").
  - split; [exact R1|]. split; [exact R2|]. exact (proj1 (Hn 1 R1 R2)).
Defined.

(** * Further properties of the generator *)

(** ** Ranges of degrees *)

Lemma map_seq_from (B : Type) (q s : nat) (f : nat -> B) :
  map f (seq s q) = map (fun i => f (s + i)%nat) (seq 0 q).
Proof.
  revert s f. induction q as [|q IH]; intros s f; [reflexivity|].
  cbn [seq map]. f_equal; [f_equal; lia|].
  rewrite (IH (S s) f), (IH 1%nat (fun i => f (s + i)%nat)).
  apply map_ext. intros i. f_equal. lia.
Qed.

Lemma range_app (a b c : Z) :
  a <= b <= c -> Py.range a c = (Py.range a b ++ Py.range b c)%list.
Proof.
  intros H. unfold Py.range.
  replace (Z.to_nat (c - a)) with (Z.to_nat (b - a) + Z.to_nat (c - b))%nat by lia.
  rewrite seq_app, map_app. f_equal.
  rewrite map_seq_from. apply map_ext. intros i. lia.
Qed.

(** ** Further facts about the instruction table *)

(** X1: an empty or inverted range of degrees is not rejected: the table
    is empty. *)
Theorem generate_ynm_instructions_empty_range
  (sym : SymPy) (Ylm : YlmT) (max_degree start_degree : Z) :
  max_degree <= start_degree ->
  generate_ynm_instructions sym Ylm max_degree start_degree = [].
Proof.
  intros H. rewrite generate_ynm_instructions_map, range_empty by exact H.
  reflexivity.
Qed.

Lemma generate_ynm_instructions_empty_range_witness :
  2 <= 5 /\ generate_ynm_instructions Demo.sympy Demo.Ylm 2 5 = [].
Proof.
  assert (H : 2 <= 5) by lia.
  split; [exact H|].
  exact (generate_ynm_instructions_empty_range Demo.sympy Demo.Ylm 2 5 H).
Defined.

Lemma table_app
  (sym : SymPy) (Ylm : YlmT) (start_degree mid_degree max_degree : Z) :
  start_degree <= mid_degree <= max_degree ->
  generate_ynm_instructions sym Ylm max_degree start_degree
  = (generate_ynm_instructions sym Ylm mid_degree start_degree
     ++ generate_ynm_instructions sym Ylm max_degree mid_degree)%list.
Proof.
  intros H. rewrite !generate_ynm_instructions_map.
  rewrite (range_app start_degree mid_degree max_degree) by exact H.
  apply map_app.
Qed.

(** X2: deriving a range of degrees in two parts and appending the two
    tables gives the table of the whole range. *)
Theorem generate_ynm_instructions_app
  (sym : SymPy) (Ylm : YlmT) (start_degree mid_degree max_degree : Z) :
  start_degree <= mid_degree <= max_degree ->
  generate_ynm_instructions sym Ylm max_degree start_degree
  = (generate_ynm_instructions sym Ylm mid_degree start_degree
     ++ generate_ynm_instructions sym Ylm max_degree mid_degree)%list.
Proof. apply table_app. Qed.

Lemma generate_ynm_instructions_app_witness :
  0 <= 1 <= 3
  /\ generate_ynm_instructions Demo.sympy Demo.Ylm 3 0
     = (generate_ynm_instructions Demo.sympy Demo.Ylm 1 0
        ++ generate_ynm_instructions Demo.sympy Demo.Ylm 3 1)%list.
Proof.
  assert (H : 0 <= 1 <= 3) by lia.
  split; [exact H|].
  exact (generate_ynm_instructions_app Demo.sympy Demo.Ylm 0 1 3 H).
Defined.

Lemma concat_flat_levels (sym : SymPy) (Ylm : YlmT) (d : Z) :
  List.concat (generate_ynm_instructions sym Ylm d 0) = flat_levels sym Ylm d.
Proof.
  rewrite generate_ynm_instructions_map. unfold flat_levels.
  now rewrite flat_map_concat_map, map_id.
Qed.

(** X3: for [0 <= start_degree <= max_degree] the table holds
    [max_degree^2 - start_degree^2] instructions in all. *)
Theorem generate_ynm_instructions_total
  (sym : SymPy) (Ylm : YlmT) (max_degree start_degree : Z) :
  0 <= start_degree <= max_degree ->
  Z.of_nat (List.length
              (List.concat (generate_ynm_instructions sym Ylm max_degree start_degree)))
  = max_degree * max_degree - start_degree * start_degree.
Proof.
  intros H.
  pose proof (table_app sym Ylm 0 start_degree max_degree ltac:(lia)) as E.
  apply (f_equal (@List.concat string)) in E.
  rewrite concat_app, !concat_flat_levels in E.
  apply (f_equal (@List.length string)) in E.
  rewrite length_app in E.
  pose proof (flat_levels_length sym Ylm max_degree ltac:(lia)).
  pose proof (flat_levels_length sym Ylm start_degree ltac:(lia)).
  lia.
Qed.

Lemma generate_ynm_instructions_total_witness :
  0 <= 2 <= 4
  /\ Z.of_nat (List.length
                 (List.concat (generate_ynm_instructions Demo.sympy Demo.Ylm 4 2)))
     = 4 * 4 - 2 * 2.
Proof.
  assert (H : 0 <= 2 <= 4) by lia.
  split; [exact H|].
  exact (generate_ynm_instructions_total Demo.sympy Demo.Ylm 4 2 H).
Defined.

(** X4: negative degrees are not rejected either: the band of a negative
    degree is empty, and a table whose degrees are all negative holds no
    instruction although it has [max_degree - start_degree] bands. *)
Theorem generate_ynm_instructions_negative
  (sym : SymPy) (Ylm : YlmT) (max_degree start_degree : Z) :
  (forall (i : nat) (band : list string),
      nth_error (generate_ynm_instructions sym Ylm max_degree start_degree) i = Some band ->
      start_degree + Z.of_nat i < 0 ->
      band = [])
  /\ (max_degree <= 0 ->
      List.concat (generate_ynm_instructions sym Ylm max_degree start_degree) = []
      /\ List.length (generate_ynm_instructions sym Ylm max_degree start_degree)
         = Z.to_nat (max_degree - start_degree)).
Proof.
  split.
  - intros i band Hb Hneg. apply table_nth in Hb as [-> _].
    now apply ynm_level_negative.
  - intros Hmax. split; [|apply table_length].
    rewrite generate_ynm_instructions_map.
    assert (G : forall l : list Z,
               (forall n, In n l -> n < 0) ->
               List.concat (map (ynm_level sym Ylm) l) = []).
    { induction l as [|n l IH]; intros Hl; [reflexivity|].
      cbn [map List.concat]. rewrite ynm_level_negative by (apply Hl; now left).
      apply IH. intros n' Hn'. apply Hl. now right. }
    apply G. intros n Hn. apply range_In in Hn. lia.
Qed.

Lemma generate_ynm_instructions_negative_witness :
  (nth_error (generate_ynm_instructions Demo.sympy Demo.Ylm 1 (-2)) 1 = Some []
   /\ -2 + Z.of_nat 1 < 0)
  /\ (0 <= 0
      /\ List.concat (generate_ynm_instructions Demo.sympy Demo.Ylm 0 (-2)) = []
      /\ List.length (generate_ynm_instructions Demo.sympy Demo.Ylm 0 (-2)) = 2%nat).
Proof.
  pose proof (generate_ynm_instructions_negative Demo.sympy Demo.Ylm 0 (-2)) as [_ H0].
  pose proof (generate_ynm_instructions_negative Demo.sympy Demo.Ylm 1 (-2)) as [H1 _].
  split.
  - assert (Hb : nth_error (generate_ynm_instructions Demo.sympy Demo.Ylm 1 (-2)) 1
                 = Some (ynm_level Demo.sympy Demo.Ylm (-1))) by reflexivity.
    assert (Hn : -2 + Z.of_nat 1 < 0) by (vm_compute; reflexivity).
    split; [|exact Hn].
    exact (eq_trans Hb (f_equal (@Some (list string)) (H1 1%nat _ Hb Hn))).
  - assert (Hm : 0 <= 0) by lia.
    split; [exact Hm|]. exact (H0 Hm).
Defined.

(** ** Further facts about routines *)

(** X5: in the routine of degree [d] over a table that starts at degree 0,
    the instruction of the pair [(n, m)], [n < d], stands at position
    [n*n + n + m]. *)
Theorem instruction_position
  (sym : SymPy) (Ylm : YlmT) (max_degree d n m : Z) :
  0 <= n < d -> d <= max_degree -> - n <= m <= n ->
  nth_error (flatten_bands (generate_ynm_instructions sym Ylm max_degree 0) d)
            (Z.to_nat (n * n + n + m))
  = Some (ynm_instruction sym Ylm n m).
Proof.
  intros Hn Hd Hm.
  rewrite flatten_bands_table by lia.
  rewrite flat_levels_nth by nia.
  rewrite Z2Nat.id by nia.
  assert (Hs : Z.sqrt (n * n + n + m) = n).
  { apply Z.sqrt_unique. unfold Z.succ. nia. }
  rewrite Hs. do 2 f_equal. lia.
Qed.

Lemma instruction_position_witness :
  0 <= 1 < 2 /\ 2 <= 3 /\ - 1 <= 1 <= 1
  /\ nth_error (flatten_bands (generate_ynm_instructions Demo.sympy Demo.Ylm 3 0) 2)
               (Z.to_nat (1 * 1 + 1 + 1))
     = Some (ynm_instruction Demo.sympy Demo.Ylm 1 1).
Proof.
  assert (H1 : 0 <= 1 < 2) by lia.
  assert (H2 : 2 <= 3) by lia.
  assert (H3 : - 1 <= 1 <= 1) by lia.
  split; [exact H1|]. split; [exact H2|]. split; [exact H3|].
  exact (instruction_position Demo.sympy Demo.Ylm 3 2 1 1 H1 H2 H3).
Defined.

(** X6: the routine of degree [d] does not depend on how far beyond [d]
    the table was derived. *)
Theorem generate_ynm_method_any_larger_table
  (sym : SymPy) (Ylm : YlmT) (max_degree max_degree' d : Z) :
  0 <= d -> d <= max_degree -> d <= max_degree' ->
  generate_ynm_method (generate_ynm_instructions sym Ylm max_degree 0) d
  = generate_ynm_method (generate_ynm_instructions sym Ylm max_degree' 0) d.
Proof.
  intros H0 H1 H2.
  rewrite !generate_ynm_method_text, !flatten_bands_table by lia.
  reflexivity.
Qed.

Lemma generate_ynm_method_any_larger_table_witness :
  0 <= 2 /\ 2 <= 8 /\ 2 <= 3
  /\ generate_ynm_method (generate_ynm_instructions Demo.sympy Demo.Ylm 8 0) 2
     = generate_ynm_method (generate_ynm_instructions Demo.sympy Demo.Ylm 3 0) 2.
Proof.
  assert (H0 : 0 <= 2) by lia.
  assert (H1 : 2 <= 8) by lia.
  assert (H2 : 2 <= 3) by lia.
  split; [exact H0|]. split; [exact H1|]. split; [exact H2|].
  exact (generate_ynm_method_any_larger_table Demo.sympy Demo.Ylm 8 3 2 H0 H1 H2).
Defined.

(** X7: over one table, the instructions stacked for a degree [d >= 0]
    are the leading instructions stacked for any degree [d' >= d]. *)
Theorem flatten_bands_prefix (ynm_instr : list (list string)) (d d' : Z) :
  0 <= d <= d' ->
  firstn (List.length (flatten_bands ynm_instr d)) (flatten_bands ynm_instr d')
  = flatten_bands ynm_instr d.
Proof.
  intros H. unfold flatten_bands, Py.slice_to.
  destruct (Z.ltb_spec d 0) as [?|_]; [lia|].
  destruct (Z.ltb_spec d' 0) as [?|_]; [lia|].
  set (t' := firstn (Z.to_nat d') ynm_instr).
  assert (E : firstn (Z.to_nat d) ynm_instr = firstn (Z.to_nat d) t').
  { unfold t'. rewrite firstn_firstn. f_equal. lia. }
  rewrite E.
  rewrite <- (firstn_skipn (Z.to_nat d) t') at 2.
  rewrite flat_map_app, firstn_app, firstn_all, Nat.sub_diag, firstn_0.
  apply app_nil_r.
Qed.

Lemma flatten_bands_prefix_witness :
  0 <= 1 <= 2
  /\ firstn (List.length (flatten_bands [["a"]; ["b"; "c"; "d"]; ["e"]] 1))
            (flatten_bands [["a"]; ["b"; "c"; "d"]; ["e"]] 2)
     = flatten_bands [["a"]; ["b"; "c"; "d"]; ["e"]] 1.
Proof.
  assert (H : 0 <= 1 <= 2) by lia.
  split; [exact H|].
  exact (flatten_bands_prefix [["a"]; ["b"; "c"; "d"]; ["e"]] 1 2 H).
Defined.

Lemma str_negative (d : Z) : d < 0 -> Py.str d = "-" ++ Py.str (- d).
Proof.
  intros H. destruct d as [|p|p]; try lia. reflexivity.
Qed.

(** X8: a negative degree is not rejected.  The slice counts from the end
    of the table, so the routine stacks the bands that degree
    [len(table) + d] would select (none when that is not positive), and
    its definition line carries the minus sign of the degree. *)
Theorem generate_ynm_method_negative (ynm_instr : list (list string)) (d : Z) :
  d < 0 ->
  let d' := Z.max 0 (Z.of_nat (List.length ynm_instr) + d) in
  flatten_bands ynm_instr d = flatten_bands ynm_instr d'
  /\ generate_ynm_method ynm_instr d
     = Py.Ok (method_text ("-" ++ Py.str (- d))
                (Py.join "," (flatten_bands ynm_instr d')))
  /\ def_line d = "def rsh_cart_-" ++ Py.str (- d) ++ "(xyz:torch.Tensor):".
Proof.
  intros H d'.
  assert (E : flatten_bands ynm_instr d = flatten_bands ynm_instr d').
  { unfold flatten_bands, Py.slice_to.
    destruct (Z.ltb_spec d 0) as [_|?]; [|lia].
    destruct (Z.ltb_spec d' 0) as [?|_]; [lia|].
    do 2 f_equal. lia. }
  split; [exact E|]. split.
  - rewrite generate_ynm_method_text, E, str_negative by exact H. reflexivity.
  - unfold def_line. rewrite str_negative by exact H. reflexivity.
Qed.

Lemma generate_ynm_method_negative_witness :
  -1 < 0
  /\ flatten_bands [["a"]; ["b"; "c"; "d"]; ["e"]] (-1) = ["a"; "b"; "c"; "d"]
  /\ def_line (-1) = "def rsh_cart_-1(xyz:torch.Tensor):".
Proof.
  assert (H : -1 < 0) by lia.
  pose proof (generate_ynm_method_negative [["a"]; ["b"; "c"; "d"]; ["e"]] (-1) H)
    as [E [_ L]].
  split; [exact H|]. split; [exact E | exact L].
Defined.

(** For degree 0 the routine stacks the empty list, whatever the table
    holds. *)
Lemma generate_ynm_method_degree_zero (ynm_instr : list (list string)) :
  flatten_bands ynm_instr 0 = []
  /\ generate_ynm_method ynm_instr 0 = Py.Ok (method_text "0" "").
Proof.
  split; [reflexivity|]. now rewrite generate_ynm_method_text.
Qed.

(** X9: in a routine of degree [d >= 1] over a table that starts at
    degree 0, the first stacked output is the broadcast constant of the
    pair [(0, 0)] and every later output is a bare serialized expression. *)
Theorem routine_first_output_broadcast
  (sym : SymPy) (Ylm : YlmT) (max_degree d : Z) :
  1 <= d <= max_degree ->
  let ynms := flatten_bands (generate_ynm_instructions sym Ylm max_degree 0) d in
  nth_error ynms 0
  = Some ("xyz.new_tensor(" ++ ynm_code sym Ylm 0 0 ++ ").expand(xyz.shape[:-1])")
  /\ forall k : nat,
       (1 <= k)%nat -> Z.of_nat k < d * d ->
       let n := Z.sqrt (Z.of_nat k) in
       nth_error ynms k = Some (ynm_code sym Ylm n (Z.of_nat k - n * n - n)).
Proof.
  intros H ynms. unfold ynms. rewrite flatten_bands_table by lia.
  split.
  - rewrite flat_levels_nth by nia. reflexivity.
  - intros k Hk Hlt. rewrite flat_levels_nth by lia.
    set (n := Z.sqrt (Z.of_nat k)).
    assert (Hn : 1 <= n).
    { pose proof (Z.sqrt_le_mono 1 (Z.of_nat k) ltac:(lia)) as M.
      change (Z.sqrt 1) with 1 in M. exact M. }
    unfold ynm_instruction, ynm_code.
    destruct (Z.eqb_spec n 0) as [E|_]; [lia|reflexivity].
Qed.

Lemma routine_first_output_broadcast_witness :
  1 <= 2 <= 3
  /\ nth_error (flatten_bands (generate_ynm_instructions Demo.sympy Demo.Ylm 3 0) 2) 0
     = Some "xyz.new_tensor(28209479/100000000).expand(xyz.shape[:-1])".
Proof.
  assert (H : 1 <= 2 <= 3) by lia.
  split; [exact H|].
  exact (proj1 (routine_first_output_broadcast Demo.sympy Demo.Ylm 3 2 H)).
Defined.

(** ** Further facts about documents *)

Lemma concat_cons2 (sep a b : string) (l : list string) :
  String.concat sep (a :: b :: l) = a ++ sep ++ String.concat sep (b :: l).
Proof. reflexivity. Qed.

Lemma concat_single (sep a : string) : String.concat sep [a] = a.
Proof. reflexivity. Qed.

Lemma join_app (sep a : string) (l1 l2 : list string) :
  Py.join sep ((a :: l1) ++ l2)
  = Py.join sep (a :: l1)
    ++ fold_right String.append "" (map (fun s => sep ++ s) l2).
Proof.
  unfold Py.join. revert a. induction l1 as [|b l1 IH]; intros a.
  - cbn [app]. rewrite concat_single. revert a.
    induction l2 as [|b l2 IH2]; intros a.
    + rewrite concat_single. cbn [map fold_right]. now rewrite append_empty.
    + rewrite concat_cons2, IH2. cbn [map fold_right].
      now rewrite !append_assoc.
  - rewrite <- !app_comm_cons, !concat_cons2.
    rewrite app_comm_cons, IH. now rewrite !append_assoc.
Qed.

(** X10: requesting further degrees appends their routines, each after a
    newline, to the document of the degrees requested so far; with no
    degree at all the document is the header and the preamble. *)
Theorem generate_ynm_file_app
  (ynm_instr : list (list string)) (degrees more : list Z) :
  (exists doc,
      generate_ynm_file ynm_instr degrees = Py.Ok doc
      /\ generate_ynm_file ynm_instr (degrees ++ more)
         = Py.Ok (doc ++ fold_right String.append ""
                           (map (fun d => Py.nl ++ routine_text ynm_instr d) more)))
  /\ generate_ynm_file ynm_instr [] = Py.Ok (header_tpl ++ Py.nl ++ import_tpl).
Proof.
  split; [|now rewrite generate_ynm_file_parts].
  eexists. split; [apply generate_ynm_file_parts|].
  rewrite generate_ynm_file_parts. f_equal.
  rewrite map_app.
  change (header_tpl :: import_tpl
          :: (map (routine_text ynm_instr) degrees
              ++ map (routine_text ynm_instr) more))%list
    with ((header_tpl :: import_tpl :: map (routine_text ynm_instr) degrees)
          ++ map (routine_text ynm_instr) more)%list.
  rewrite join_app, map_map. reflexivity.
Qed.

(** ** The substitution table and the template *)

(** X11: the six keys of [_subs] are distinct expressions in [x], [y],
    [z]; the six replacements are distinct symbols other than [x], [y],
    [z]; and the routine template assigns each replacement symbol, and the
    three coordinates, in the text that precedes the stacked list. *)
Theorem subs_symbols_assigned_in_template :
  (forall k v : Expr,
      In (k, v) _subs ->
      in_xyz k
      /\ exists name,
           v = Symbol name false
           /\ ~ In name ["x"; "y"; "z"]
           /\ Py.contains method_body (Py.nl ++ "    " ++ name ++ "=") = true)
  /\ NoDup (map fst _subs)
  /\ NoDup (map snd _subs)
  /\ (forall name : string,
        In name ["x"; "y"; "z"] ->
        Py.contains method_body (Py.nl ++ "    " ++ name ++ " = xyz[...,") = true).
Proof.
  split; [|split; [|split]].
  - intros k v H. unfold _subs in H. simpl in H.
    destruct H as [E|[E|[E|[E|[E|[E|[]]]]]]]; injection E as <- <-;
      (split;
       [ intros s Hs; simpl in Hs; simpl; tauto
       | eexists; split; [reflexivity|]; split;
         [ simpl; intros [F|[F|[F|[]]]]; discriminate F
         | vm_compute; reflexivity ] ]).
  - unfold _subs. cbn [map fst snd].
    repeat (apply NoDup_cons; [cbn [In]; intuition discriminate|]).
    apply NoDup_nil.
  - unfold _subs. cbn [map fst snd].
    repeat (apply NoDup_cons; [cbn [In]; intuition discriminate|]).
    apply NoDup_nil.
  - intros name H. simpl in H.
    destruct H as [<-|[<-|[<-|[]]]]; vm_compute; reflexivity.
Qed.

Lemma subs_symbols_assigned_in_template_witness :
  In (Mul x z, symbols "xz") _subs
  /\ in_xyz (Mul x z)
  /\ Py.contains method_body (Py.nl ++ "    " ++ "xz" ++ "=") = true.
Proof.
  assert (H : In (Mul x z, symbols "xz") _subs).
  { unfold _subs. simpl. tauto. }
  pose proof (proj1 subs_symbols_assigned_in_template _ _ H) as [Hk _].
  split; [exact H|]. split; [exact Hk|]. reflexivity.
Defined.

(** ** In-process compilation *)

Lemma dict_getitem_In {V : Type} (ctx : list (string * V)) (key : string) (f : V) :
  In (key, f) ctx -> exists g, dict_getitem ctx key = Py.Ok g.
Proof.
  induction ctx as [|[k v] ctx IH]; intros Hin; [destruct Hin|].
  cbn [dict_getitem].
  destruct (String.eqb_spec key k) as [_|Hne]; [now exists v|].
  destruct Hin as [Heq|Hin]; [congruence|]. now apply IH.
Qed.

Lemma dict_getitem_missing {V : Type} (ctx : list (string * V)) (key : string) :
  ~ In key (map fst ctx) -> dict_getitem ctx key = Py.Raise (Py.Exc Py.KeyError key).
Proof.
  induction ctx as [|[k v] ctx IH]; intros Hnot; [reflexivity|].
  cbn [dict_getitem].
  destruct (String.eqb_spec key k) as [Heq|_].
  - exfalso. apply Hnot. left. symmetry. exact Heq.
  - apply IH. intros Hin. apply Hnot. right. exact Hin.
Qed.

(** X16: for a degree [d >= 0], [compile_file] derives the [d + 1] bands
    of degrees 0 to [d] and executes the document made of the header, the
    preamble and the single routine of degree [d], which stacks the [d * d]
    instructions of the bands below [d]; the name on the definition line
    of that routine is the key under which the callable is then looked up;
    an exception of the execution is passed on, and a namespace without
    that key gives a [KeyError]. *)
Theorem compile_file_source
  (sym : SymPy) (Ylm : YlmT) (callable : Type)
  (exec : string -> Py.result (list (string * callable))) (d : Z) :
  0 <= d ->
  let instr := generate_ynm_instructions sym Ylm (d + 1) 0 in
  let source := Py.join Py.nl [header_tpl; import_tpl; routine_text instr d] in
  compile_file sym Ylm callable exec d
  = (ctx <- exec source ;; dict_getitem ctx (compile_name d))
  /\ Z.of_nat (List.length instr) = d + 1
  /\ Z.of_nat (List.length (flatten_bands instr d)) = d * d
  /\ (exists rest,
        routine_text instr d
        = Py.nl ++ "def " ++ compile_name d ++ "(xyz:torch.Tensor):" ++ rest)
  /\ (forall e, exec source = Py.Raise e ->
                compile_file sym Ylm callable exec d = Py.Raise e)
  /\ (forall ctx f,
        exec source = Py.Ok ctx -> In (compile_name d, f) ctx ->
        exists g, compile_file sym Ylm callable exec d = Py.Ok g)
  /\ (forall ctx,
        exec source = Py.Ok ctx ->
        ~ In (compile_name d) (map fst ctx) ->
        compile_file sym Ylm callable exec d
        = Py.Raise (Py.Exc Py.KeyError (compile_name d))).
Proof.
  intros Hd instr source.
  assert (E : compile_file sym Ylm callable exec d
              = (ctx <- exec source ;; dict_getitem ctx (compile_name d))).
  { unfold compile_file. fold instr. now rewrite generate_ynm_file_parts, bind_Ok. }
  split; [exact E|].
  split; [unfold instr; rewrite table_length; lia|].
  split; [unfold instr; apply table_routine_count; lia|].
  split.
  { destruct (routine_text_def_line instr d) as [rest Hr]. exists rest.
    rewrite Hr. unfold def_line, compile_name. now rewrite !append_assoc. }
  split; [intros e He; now rewrite E, He|].
  split.
  - intros ctx f He Hin. rewrite E, He, bind_Ok.
    now apply dict_getitem_In with (f := f).
  - intros ctx He Hnot. rewrite E, He, bind_Ok.
    now apply dict_getitem_missing.
Qed.

Lemma compile_file_source_witness :
  0 <= 2
  /\ compile_file Demo.sympy Demo.Ylm nat
       (fun source => Py.Ok [("torch", 0%nat); ("rsh_cart_2", 1%nat)]) 2
     = Py.Ok 1%nat
  /\ Z.of_nat (List.length
                 (flatten_bands (generate_ynm_instructions Demo.sympy Demo.Ylm (2 + 1) 0) 2))
     = 2 * 2.
Proof.
  assert (H : 0 <= 2) by lia.
  pose proof (compile_file_source Demo.sympy Demo.Ylm nat
                (fun source => Py.Ok [("torch", 0%nat); ("rsh_cart_2", 1%nat)]) 2 H)
    as [E [_ [Hc _]]].
  split; [exact H|]. split; [|exact Hc].
  exact (eq_trans E eq_refl).
Defined.
